(** * Session persistence and connection resilience of the MCP feedback server

    A shallow embedding of [connection_manager.py]: the [ConnectionManager]
    class (session records kept as JSON files, the heartbeat task, the bounded
    reconnection loop, [stop]) and the [with_persistent_connection] decorator.

    Conventions of the embedding.
    - Python values are the type [pyval]; a session record is a [PDict], an
      insertion-ordered dictionary with string keys. Strings are byte strings;
      numbers, the floats of [time.time()] included, are integers.
    - Every call of [time.time()] and the random bytes of [uuid.uuid4()] are
      explicit arguments of the embedded function, in source order.
    - The directory [session_store_path] is a finite map from the stem of a
      file name [<stem>.json] to the file; session identifiers are taken to be
      plain stems. [json.dump] followed by [json.load] is the function
      [to_json] on values. [open(..., 'w')] fails on the stems listed in
      [unwritable].
    - [await] points are atomic except [asyncio.sleep] in the heartbeat loop,
      where the task is suspended and later resumed by [heartbeat_loop].
    - The reconnection loop and the decorator return, next to their result,
      the list of the calls they made ([event]).

    Further embedded: the settings dictionary of [config_manager.py]
    ([ConfigManager]), the detection cache and interface choice of
    [performance_optimizer.py] ([PerformanceOptimizer]), each over its single
    JSON file, and the coroutine [test_persistent_connection] of
    [test_network_resilience.py]. *)

From Stdlib Require Import ZArith String Ascii Lia.
From stdpp Require Import base option gmap strings list.

Local Open Scope Z_scope.
Local Set Warnings "-register-all".

(** ** Python values *)

(** [PBytes] is a [bytes] object; it stands for the values that have no JSON
    encoding. *)
Inductive pyval : Type :=
| PNone
| PBool (b : bool)
| PNum (z : Z)
| PStr (s : string)
| PList (l : list pyval)
| PTuple (l : list pyval)
| PDict (d : list (string * pyval))
| PBytes (b : string).

(** Exception classes raised by the modelled library calls. *)
Inductive exc_class : Type :=
| TypeError | KeyError | AttributeError | OSError | JSONDecodeError | RuntimeError.

(** Outcome of a call that may raise. *)
Inductive res (A : Type) : Type :=
| Ok (a : A)
| Err (c : exc_class).
Arguments Ok {A} a.
Arguments Err {A} c.

Definition res_bind {A B} (r : res A) (k : A -> res B) : res B :=
  match r with
  | Ok a => k a
  | Err c => Err c
  end.

Notation "x <-! r ; k" := (res_bind r (fun x => k))
  (at level 100, r at next level, right associativity).

(** [bool(v)]: Python truth value. *)
Definition truthy (v : pyval) : bool :=
  match v with
  | PNone => false
  | PBool b => b
  | PNum z => negb (z =? 0)
  | PStr s => negb (String.eqb s "")
  | PList l | PTuple l => negb (bool_decide (l = []))
  | PDict d => match d with [] => false | _ => true end
  | PBytes b => negb (String.eqb b "")
  end.

(** Dictionaries keep insertion order; assignment to an existing key keeps its
    position, assignment to a new key appends. *)
Fixpoint dict_get (k : string) (d : list (string * pyval)) : option pyval :=
  match d with
  | [] => None
  | (k', v) :: d' => if String.eqb k k' then Some v else dict_get k d'
  end.

Fixpoint dict_set (k : string) (v : pyval) (d : list (string * pyval))
  : list (string * pyval) :=
  match d with
  | [] => [(k, v)]
  | (k', v') :: d' =>
      if String.eqb k k' then (k, v) :: d' else (k', v') :: dict_set k v d'
  end.

(** [obj[k]] for a string key [k]. *)
Definition py_getitem (obj : pyval) (k : string) : res pyval :=
  match obj with
  | PDict d => match dict_get k d with Some v => Ok v | None => Err KeyError end
  | _ => Err TypeError
  end.

(** [obj[k] = v] for a string key [k]. *)
Definition py_setitem (obj : pyval) (k : string) (v : pyval) : res pyval :=
  match obj with
  | PDict d => Ok (PDict (dict_set k v d))
  | _ => Err TypeError
  end.

(** [obj.get(k, default)]. *)
Definition py_get (obj : pyval) (k : string) (dflt : pyval) : res pyval :=
  match obj with
  | PDict d => Ok (default dflt (dict_get k d))
  | _ => Err AttributeError
  end.

(** ** JSON files

    [to_json v] is the value read back by [json.load] from the text that
    [json.dump v] writes: tuples come back as lists, a [bytes] object has no
    encoding and makes [json.dump] raise [TypeError]. *)
Fixpoint to_json (v : pyval) : option pyval :=
  match v with
  | PNone | PBool _ | PNum _ | PStr _ => Some v
  | PList l | PTuple l => PList <$> mapM to_json l
  | PDict d => PDict <$> mapM (fun kv => pair kv.1 <$> to_json kv.2) d
  | PBytes _ => None
  end.

(** Values that [json.dump] and [json.load] carry unchanged. *)
Fixpoint json_native (v : pyval) : bool :=
  match v with
  | PNone | PBool _ | PNum _ | PStr _ => true
  | PList l => forallb json_native l
  | PDict d => forallb (fun kv => json_native kv.2) d
  | PTuple _ | PBytes _ => false
  end.

(** A file of the session directory: well-formed JSON text denoting [doc], or
    text that [json.load] rejects (for instance the truncated output left
    behind when [json.dump] raises midway). *)
Inductive file : Type :=
| FJson (doc : pyval)
| FBroken.

Definition json_load (f : file) : res pyval :=
  match f with
  | FJson doc => Ok doc
  | FBroken => Err JSONDecodeError
  end.


(** ** Session identifiers

    [str(uuid.uuid4())] on the 128-bit integer read from [os.urandom(16)]:
    the variant and version bits are forced, the integer is printed as 32
    lower-case hexadecimal digits in groups of 8-4-4-4-12. *)
Module UUID.

Definition hex_digit (n : Z) : ascii :=
  match n with
  | 0 => "0" | 1 => "1" | 2 => "2" | 3 => "3"
  | 4 => "4" | 5 => "5" | 6 => "6" | 7 => "7"
  | 8 => "8" | 9 => "9" | 10 => "a" | 11 => "b"
  | 12 => "c" | 13 => "d" | 14 => "e" | _ => "f"
  end%char.

(** [UUID.__init__] with [version=4]. *)
Definition set_version4 (n : Z) : Z :=
  let n := Z.land n (Z.lnot (Z.shiftl 0xc000 48)) in
  let n := Z.lor n (Z.shiftl 0x8000 48) in
  let n := Z.land n (Z.lnot (Z.shiftl 0xf000 64)) in
  Z.lor n (Z.shiftl 4 76).

(** The [i]-th digit, from the left, of ['%032x' % n]. *)
Definition nibble (n : Z) (i : nat) : Z :=
  Z.land (Z.shiftr n (4 * (31 - Z.of_nat i))) 15.

Definition hex_group (n : Z) (start len : nat) : list ascii :=
  map (fun i => hex_digit (nibble n i)) (seq start len).

(** [UUID.__str__]. *)
Definition uuid_str (n : Z) : string :=
  string_of_list_ascii
    (hex_group n 0 8 ++ "-"%char :: hex_group n 8 4 ++ "-"%char ::
     hex_group n 12 4 ++ "-"%char :: hex_group n 16 4 ++ "-"%char ::
     hex_group n 20 12).

Definition uuid4 (rnd : Z) : string :=
  uuid_str (set_version4 (rnd mod 2 ^ 128)).





End UUID.
(** ** The manager and its environment *)

(** An [asyncio.Task] running [heartbeat_loop]: created but not yet started,
    suspended in [asyncio.sleep], or finished. [cancel_requested] is set by
    [Task.cancel()] and makes the next resumption raise [CancelledError]
    inside the coroutine. *)
Inductive task_state : Type :=
| TaskPending
| TaskSleeping
| TaskDone.

Record task : Type := mkTask {
  task_st : task_state;
  cancel_requested : bool
}.

(** The attributes of [ConnectionManager]; [PNone] is Python's [None], and
    [heartbeat_task] refers to a task by its position in [tasks]. *)
Record manager : Type := mkManager {
  is_persistent_mode : bool;
  heartbeat_interval : Z;
  reconnect_delay : Z;
  max_reconnect_attempts : Z;
  current_session : pyval;
  heartbeat_task : option nat;
  is_running : bool
}.

(** The manager together with what it acts on: the files of
    [session_store_path] by stem, the stems whose file cannot be opened for
    writing ([open] raises [OSError]), and the tasks of the event loop. *)
Record world : Type := mkWorld {
  mgr : manager;
  store : gmap string file;
  unwritable : gset string;
  tasks : list task
}.

(** [ConnectionManager.__init__]. *)
Definition init_manager : manager :=
  {| is_persistent_mode := false;
     heartbeat_interval := 30;
     reconnect_delay := 5;
     max_reconnect_attempts := 10;
     current_session := PNone;
     heartbeat_task := None;
     is_running := false |}.

Definition with_session (s : pyval) (m : manager) : manager :=
  {| is_persistent_mode := is_persistent_mode m;
     heartbeat_interval := heartbeat_interval m;
     reconnect_delay := reconnect_delay m;
     max_reconnect_attempts := max_reconnect_attempts m;
     current_session := s;
     heartbeat_task := heartbeat_task m;
     is_running := is_running m |}.

Definition with_running (b : bool) (m : manager) : manager :=
  {| is_persistent_mode := is_persistent_mode m;
     heartbeat_interval := heartbeat_interval m;
     reconnect_delay := reconnect_delay m;
     max_reconnect_attempts := max_reconnect_attempts m;
     current_session := current_session m;
     heartbeat_task := heartbeat_task m;
     is_running := b |}.

Definition with_task (t : option nat) (m : manager) : manager :=
  {| is_persistent_mode := is_persistent_mode m;
     heartbeat_interval := heartbeat_interval m;
     reconnect_delay := reconnect_delay m;
     max_reconnect_attempts := max_reconnect_attempts m;
     current_session := current_session m;
     heartbeat_task := t;
     is_running := is_running m |}.

Definition with_persistent (b : bool) (m : manager) : manager :=
  {| is_persistent_mode := b;
     heartbeat_interval := heartbeat_interval m;
     reconnect_delay := reconnect_delay m;
     max_reconnect_attempts := max_reconnect_attempts m;
     current_session := current_session m;
     heartbeat_task := heartbeat_task m;
     is_running := is_running m |}.

Definition set_mgr (m : manager) (w : world) : world :=
  {| mgr := m; store := store w; unwritable := unwritable w; tasks := tasks w |}.

Definition set_store (s : gmap string file) (w : world) : world :=
  {| mgr := mgr w; store := s; unwritable := unwritable w; tasks := tasks w |}.

Definition set_tasks (ts : list task) (w : world) : world :=
  {| mgr := mgr w; store := store w; unwritable := unwritable w; tasks := ts |}.

Definition session (w : world) : pyval := current_session (mgr w).

Definition set_session (s : pyval) (w : world) : world :=
  set_mgr (with_session s (mgr w)) w.

(** [enable_persistent_mode]; the signal handlers it installs call [stop]. *)
Definition enable_persistent_mode (w : world) : world :=
  set_mgr (with_persistent true (mgr w)) w.

Section Manager.

(** [str(v)] for a value that is not a string, as used by the f-string that
    names the session file. *)
Variable py_str : pyval -> string.

(** Stem of [session_store_path / f"{session_id}.json"]. *)
Definition session_file (session_id : pyval) : string :=
  match session_id with
  | PStr s => s
  | v => py_str v
  end.

(** [with open(session_file, 'w') as f: json.dump(obj, f, ...)]. [open]
    truncates the file before [json.dump] runs. *)
Definition write_json (stem : string) (obj : pyval) (w : world) : res unit * world :=
  if bool_decide (stem ∈ unwritable w) then (Err OSError, w)
  else match to_json obj with
       | Some doc => (Ok (), set_store (<[stem := FJson doc]> (store w)) w)
       | None => (Err TypeError, set_store (<[stem := FBroken]> (store w)) w)
       end.

Definition _save_session_state (w : world) : world :=
  if negb (truthy (session w)) then w
  else match py_getitem (session w) "session_id" with
       | Ok session_id => (write_json (session_file session_id) (session w) w).2
       | Err _ => w
       end.

Definition _send_heartbeat (now : Z) (w : world) : world :=
  if truthy (session w) then
    match py_setitem (session w) "last_heartbeat" (PNum now) with
    | Ok s => _save_session_state (set_session s w)
    | Err _ => w
    end
  else w.

(** The dictionary literal of [create_persistent_session]; [created_at] and
    [last_heartbeat] come from two successive calls of [time.time()]. *)
Definition new_session (session_id project_directory summary : string)
    (t_created t_heartbeat : Z) : pyval :=
  PDict [("session_id", PStr session_id);
         ("project_directory", PStr project_directory);
         ("summary", PStr summary);
         ("created_at", PNum t_created);
         ("last_heartbeat", PNum t_heartbeat);
         ("status", PStr "active");
         ("feedback_result", PNone);
         ("images", PList []);
         ("command_logs", PList [])]%string.

(** [rnd] is the integer of the 16 random bytes drawn by [uuid.uuid4()]. *)
Definition create_persistent_session (rnd : Z) (t_created t_heartbeat : Z)
    (project_directory summary : string) (w : world) : string * world :=
  let session_id := UUID.uuid4 rnd in
  let session_data :=
    new_session session_id project_directory summary t_created t_heartbeat in
  (session_id, _save_session_state (set_session session_data w)).

Definition restore_session (session_id : pyval) (w : world) : pyval * world :=
  match store w !! session_file session_id with
  | Some f =>
      match json_load f with
      | Ok session_data => (session_data, set_session session_data w)
      | Err _ => (PNone, w)
      end
  | None => (PNone, w)
  end.

Definition update_session_feedback (feedback images : pyval) (w : world)
  : res unit * world :=
  if truthy (session w) then
    match (s1 <-! py_setitem (session w) "feedback_result" feedback;
           s2 <-! py_setitem s1 "images" images;
           py_setitem s2 "status" (PStr "completed")) with
    | Ok s => (Ok (), _save_session_state (set_session s w))
    | Err c => (Err c, w)
    end
  else (Ok (), w).

(** Operand of the subtraction [time.time() - x]. *)
Definition as_number (v : pyval) : res Z :=
  match v with
  | PNum z => Ok z
  | PBool b => Ok (Z.b2z b)
  | _ => Err TypeError
  end.

(** [json.load] of one file followed by [session_data.get("last_heartbeat", 0)]
    as a number. *)
Definition last_activity (f : file) : res (pyval * Z) :=
  session_data <-! json_load f;
  hb <-! py_get session_data "last_heartbeat" (PNum 0);
  z <-! as_number hb;
  Ok (session_data, z).

(** The loop of [get_active_sessions] over the listed files. The [try] encloses
    the whole loop: the first exception ends it and the sessions gathered so
    far are returned. [clock i] is the reading of [time.time()] taken for the
    [i]-th file. *)
Fixpoint scan_sessions (clock : nat -> Z) (i : nat) (files : list (string * file))
    (sessions : list pyval) : list pyval :=
  match files with
  | [] => sessions
  | (_, f) :: rest =>
      match last_activity f with
      | Ok (session_data, hb) =>
          if bool_decide (clock i - hb < 86400)
          then scan_sessions clock (S i) rest (sessions ++ [session_data])
          else scan_sessions clock (S i) rest sessions
      | Err _ => sessions
      end
  end.

(** [glob("*.json")] lists the files in the order of [map_to_list]. *)
Definition get_active_sessions (clock : nat -> Z) (w : world) : list pyval :=
  scan_sessions clock 0 (map_to_list (store w)) [].

(** The loop body of [cleanup_old_sessions] has its own [try]: a file that
    cannot be read is skipped and the loop goes on. *)
Definition cleanup_file (current_time max_age_seconds : Z)
    (s : gmap string file) (kf : string * file) : gmap string file :=
  match last_activity kf.2 with
  | Ok (_, hb) =>
      if bool_decide (current_time - hb > max_age_seconds)
      then delete kf.1 s else s
  | Err _ => s
  end.

Definition cleanup_old_sessions (current_time max_age_hours : Z) (w : world) : world :=
  set_store
    (foldl (cleanup_file current_time (max_age_hours * 3600))
           (store w) (map_to_list (store w))) w.

(** ** Heartbeat task *)

Definition start_heartbeat (w : world) : world :=
  if negb (is_persistent_mode (mgr w)) then w
  else
    let handle := length (tasks w) in
    set_tasks (tasks w ++ [mkTask TaskPending false])
      (set_mgr (with_task (Some handle) (with_running true (mgr w))) w).

Definition set_task (i : nat) (t : task) (w : world) : world :=
  set_tasks (<[i := t]> (tasks w)) w.

(** The coroutine [heartbeat_loop] of task [i], resumed by the event loop: it
    runs from where it is suspended to its next [asyncio.sleep] or to its end.
    [now] is the reading of [time.time()] if a heartbeat is sent. *)
Definition heartbeat_loop (i : nat) (now : Z) (w : world) : world :=
  match tasks w !! i with
  | None => w
  | Some t =>
      match task_st t with
      | TaskDone => w
      | TaskPending =>
          if cancel_requested t then set_task i (mkTask TaskDone true) w
          else if is_running (mgr w)
               then set_task i (mkTask TaskSleeping false) w
               else set_task i (mkTask TaskDone false) w
      | TaskSleeping =>
          if cancel_requested t then set_task i (mkTask TaskDone true) w
          else
            let w1 := if is_running (mgr w) then _send_heartbeat now w else w in
            if is_running (mgr w1) then w1
            else set_task i (mkTask TaskDone false) w1
      end
  end.

(** [Task.cancel()]: without effect on a finished task. *)
Definition cancel_task (i : nat) (w : world) : world :=
  match tasks w !! i with
  | Some t =>
      match task_st t with
      | TaskDone => w
      | st => set_task i (mkTask st true) w
      end
  | None => w
  end.

(** The first two statements of [stop]: clear [is_running], cancel the
    heartbeat task if there is one. *)
Definition request_stop (w : world) : world :=
  let w1 := set_mgr (with_running false (mgr w)) w in
  match heartbeat_task (mgr w1) with
  | Some i => cancel_task i w1
  | None => w1
  end.

(** [stop]. [in_loop] tells whether the calling thread is running an event
    loop, in which case [loop.run_until_complete] raises [RuntimeError]. *)
Definition stop (in_loop : bool) (w : world) : res unit * world :=
  let w2 := request_stop w in
  if truthy (session w2) then
    if in_loop then (Err RuntimeError, w2)
    else (Ok (), _save_session_state w2)
  else (Ok (), w2).

(** ** Reconnection *)

(** What the manager does that the claims count: a call of [asyncio.sleep] in
    the reconnection loop, a call of [_test_connection], a call of the
    wrapped function, a call of [handle_connection_loss] by the wrapper. *)
Inductive event : Type :=
| Sleep (seconds : Z)
| Probe
| CallFunc
| HandleLoss.

Global Instance event_eq_dec : EqDecision event.
Proof. solve_decision. Defined.

(** [_test_connection] as written in the source; the reconnection loop takes
    the probe as an argument, [probe k] being the outcome of the call made by
    attempt [k]. *)
Definition _test_connection : nat -> res bool := fun _ => Ok true.

Fixpoint reconnect_attempts (probe : nat -> res bool) (delay : Z)
    (attempt remaining : nat) : bool * list event :=
  match remaining with
  | O => (false, [])
  | S remaining' =>
      match probe attempt with
      | Ok true => (true, [Sleep delay; Probe])
      | _ =>
          let '(ok, log) :=
            reconnect_attempts probe delay (S attempt) remaining' in
          (ok, Sleep delay :: Probe :: log)
      end
  end.

Definition handle_connection_loss (probe : nat -> res bool) (m : manager)
  : bool * list event :=
  if negb (is_persistent_mode m) then (false, [])
  else reconnect_attempts probe (reconnect_delay m) 0
         (Z.to_nat (max_reconnect_attempts m)).

(** ** The decorator *)

(** An exception instance: its class name and [str(e)]. *)
Record exn : Type := mkExn {
  exn_class : string;
  exn_str : string
}.

(** Outcome of the wrapped function: a value, an exception derived from
    [Exception], or one that is not ([KeyboardInterrupt], [CancelledError],
    ...), which [except Exception] does not catch. *)
Inductive outcome : Type :=
| Return (v : pyval)
| Raise (e : exn)
| RaiseBase (e : exn).

(** [str.lower()] and the [in] operator on strings, on the bytes of the text. *)
Definition lower_ascii (c : ascii) : ascii :=
  let n := nat_of_ascii c in
  if ((65 <=? n) && (n <=? 90))%nat then ascii_of_nat (n + 32) else c.

Fixpoint lower (s : string) : string :=
  match s with
  | EmptyString => EmptyString
  | String c r => String (lower_ascii c) (lower r)
  end.

Fixpoint contains (needle hay : string) : bool :=
  String.prefix needle hay ||
  match hay with
  | EmptyString => false
  | String _ r => contains needle r
  end.

Definition is_connection_issue (e : exn) : bool :=
  contains "connection" (lower (exn_str e)) ||
  contains "timeout" (lower (exn_str e)).

(** [wrapper] inside [with_persistent_connection]; [func] is the wrapped
    function applied to its arguments. The third component lists the calls the
    wrapper made, in order. [ensure_heartbeat] is the first statement of the
    [try] block. *)
Definition ensure_heartbeat (w : world) : world :=
  if is_persistent_mode (mgr w) && negb (bool_decide (is_Some (heartbeat_task (mgr w))))
  then start_heartbeat w else w.

Definition with_persistent_connection (probe : nat -> res bool)
    (func : world -> outcome * world) (w : world)
  : outcome * world * list event :=
  match func (ensure_heartbeat w) with
  | (Raise e, w2) =>
      if is_connection_issue e then
        let '(ok, log) := handle_connection_loss probe (mgr w2) in
        if ok then
          let '(r, w3) := func w2 in
          (r, w3, CallFunc :: HandleLoss :: log ++ [CallFunc])
        else (Raise e, w2, CallFunc :: HandleLoss :: log)
      else (Raise e, w2, [CallFunc])
  | (r, w2) => (r, w2, [CallFunc])
  end.

End Manager.

(** * The configuration manager

    [gui/window/config_manager.py]: the class [ConfigManager], a dictionary of
    user settings cached in memory and kept in the file [ui_settings.json]. *)
Module ConfigManager.

(** The cache, the content of the configuration file ([None] when the file
    does not exist) and whether the configuration directory is read-only, in
    which case opening the file for writing and unlinking it raise [OSError]. *)
Record t : Type := mk {
  _config_cache : pyval;
  disk : option file;
  read_only : bool
}.

Definition with_cache (cache : pyval) (c : t) : t :=
  {| _config_cache := cache; disk := disk c; read_only := read_only c |}.

Definition with_disk (f : option file) (c : t) : t :=
  {| _config_cache := _config_cache c; disk := f; read_only := read_only c |}.

Definition _load_config (c : t) : t :=
  match disk c with
  | Some f =>
      match json_load f with
      | Ok config => with_cache config c
      | Err _ => with_cache (PDict []) c
      end
  | None => with_cache (PDict []) c
  end.

(** [ConfigManager.__init__] over a given file system. *)
Definition init (f : option file) (ro : bool) : t :=
  _load_config {| _config_cache := PDict []; disk := f; read_only := ro |}.

(** [with open(self._config_file, 'w') as f: json.dump(obj, f, ...)]. *)
Definition write_config (obj : pyval) (c : t) : res unit * t :=
  if read_only c then (Err OSError, c)
  else match to_json obj with
       | Some doc => (Ok (), with_disk (Some (FJson doc)) c)
       | None => (Err TypeError, with_disk (Some FBroken) c)
       end.

Definition _save_config (c : t) : t := (write_config (_config_cache c) c).2.

Definition get (key : string) (dflt : pyval) (c : t) : res pyval :=
  py_get (_config_cache c) key dflt.

Definition set (key : string) (value : pyval) (c : t) : res unit * t :=
  match py_setitem (_config_cache c) key value with
  | Ok cache => (Ok (), _save_config (with_cache cache c))
  | Err e => (Err e, c)
  end.

(** The loop of [update_partial_config] over [updates.items()]: each item is
    assigned in the configuration read from disk, then in the cache. The
    second component is the cache as the loop leaves it. *)
Fixpoint apply_updates (updates : list (string * pyval)) (current_config cache : pyval)
  : res pyval * pyval :=
  match updates with
  | [] => (Ok current_config, cache)
  | (key, value) :: rest =>
      match py_setitem current_config key value with
      | Err e => (Err e, cache)
      | Ok current_config' =>
          match py_setitem cache key value with
          | Err e => (Err e, cache)
          | Ok cache' => apply_updates rest current_config' cache'
          end
      end
  end.

Definition update_partial_config (updates : list (string * pyval)) (c : t) : t :=
  match (match disk c with
         | Some f => json_load f
         | None => Ok (PDict [])
         end) with
  | Err _ => c
  | Ok current_config =>
      match apply_updates updates current_config (_config_cache c) with
      | (Ok current_config', cache) =>
          (write_config current_config' (with_cache cache c)).2
      | (Err _, cache) => with_cache cache c
      end
  end.

Definition get_layout_mode (c : t) : res pyval := get "combined_mode" (PBool false) c.

Definition set_layout_mode (combined_mode : pyval) (c : t) : t :=
  update_partial_config [("combined_mode"%string, combined_mode)] c.

Definition get_layout_orientation (c : t) : res pyval :=
  get "layout_orientation" (PStr "vertical") c.

(** [orientation not in ['vertical', 'horizontal']]. *)
Definition is_orientation (orientation : pyval) : bool :=
  match orientation with
  | PStr s => String.eqb s "vertical" || String.eqb s "horizontal"
  | _ => false
  end.

Definition set_layout_orientation (orientation : pyval) (c : t) : t :=
  let orientation :=
    if is_orientation orientation then orientation else PStr "vertical" in
  update_partial_config [("layout_orientation"%string, orientation)] c.

Definition get_language (c : t) : res pyval := get "language" (PStr "zh-TW") c.

Definition set_language (language : pyval) (c : t) : t :=
  update_partial_config [("language"%string, language)] c.

Definition get_splitter_sizes (splitter_name : string) (c : t) : res pyval :=
  get ("splitter_sizes." ++ splitter_name) (PList []) c.

Definition set_splitter_sizes (splitter_name : string) (sizes : pyval) (c : t) : t :=
  update_partial_config [(("splitter_sizes." ++ splitter_name)%string, sizes)] c.

Definition get_window_geometry (c : t) : res pyval :=
  get "window_geometry" (PDict []) c.

Definition set_window_geometry (geometry : pyval) (c : t) : t :=
  update_partial_config [("window_geometry"%string, geometry)] c.

Definition get_always_center_window (c : t) : res pyval :=
  get "always_center_window" (PBool false) c.

Definition set_always_center_window (always_center : pyval) (c : t) : t :=
  update_partial_config [("always_center_window"%string, always_center)] c.

(** [reset_settings]: the cache is emptied first; a failing [unlink] is
    logged and raised again. *)
Definition reset_settings (c : t) : res unit * t :=
  let c1 := with_cache (PDict []) c in
  match disk c1 with
  | Some _ =>
      if read_only c1 then (Err OSError, c1)
      else (Ok (), with_disk None c1)
  | None => (Ok (), c1)
  end.

(** [key.split('.')]. *)
Fixpoint split_dot (key : string) : list string :=
  match key with
  | EmptyString => [EmptyString]
  | String ch rest =>
      if Ascii.eqb ch "." then EmptyString :: split_dot rest
      else match split_dot rest with
           | first :: others => String ch first :: others
           | [] => [String ch EmptyString]
           end
  end.

(** The loop of [get_setting]: [None] stands for the early [return default]. *)
Fixpoint lookup_path (keys : list string) (value : pyval) : option pyval :=
  match keys with
  | [] => Some value
  | k :: rest =>
      match value with
      | PDict d =>
          match dict_get k d with
          | Some v => lookup_path rest v
          | None => None
          end
      | _ => None
      end
  end.

Definition get_setting (key : string) (dflt : pyval) (c : t) : pyval :=
  default dflt (lookup_path (split_dot key) (_config_cache c)).

(** The two loops of [set_setting] on a dictionary: along [keys[:-1]] a
    missing or non-dictionary entry is replaced by an empty dictionary, which
    is then entered; [keys[-1]] is assigned in the innermost one. The
    dictionaries are updated in place. *)
Fixpoint set_path (keys : list string) (value : pyval) (config : list (string * pyval))
  : list (string * pyval) :=
  match keys with
  | [] => config
  | [k] => dict_set k value config
  | k :: rest =>
      let inner := match dict_get k config with
                   | Some (PDict d) => d
                   | _ => []
                   end in
      dict_set k (PDict (set_path rest value inner)) config
  end.

(** On a cache that is not a dictionary the first subscript raises. *)
Definition set_setting (key : string) (value : pyval) (c : t) : res unit * t :=
  match _config_cache c with
  | PDict d =>
      (Ok (), _save_config (with_cache (PDict (set_path (split_dot key) value d)) c))
  | _ => (Err TypeError, c)
  end.

Definition get_window_auto_focus (c : t) : pyval :=
  get_setting "window.auto_focus" (PBool true) c.

Definition set_window_auto_focus (auto_focus : pyval) (c : t) : res unit * t :=
  set_setting "window.auto_focus" auto_focus c.

Definition get_window_stay_on_top (c : t) : pyval :=
  get_setting "window.stay_on_top" (PBool false) c.

Definition set_window_stay_on_top (stay_on_top : pyval) (c : t) : res unit * t :=
  set_setting "window.stay_on_top" stay_on_top c.

End ConfigManager.

(** * The performance optimizer

    [performance_optimizer.py]: the cache of the class [PerformanceOptimizer],
    kept in [performance_cache.json], and the choice of the interface. The
    environment detection of the server module is an argument of the
    functions that call it. *)
Module PerformanceOptimizer.

Record t : Type := mk {
  cache_data : pyval;
  disk : option file;
  read_only : bool;
  gui_preloaded : bool;
  web_manager_ready : bool
}.

Definition with_cache (cache : pyval) (o : t) : t :=
  {| cache_data := cache; disk := disk o; read_only := read_only o;
     gui_preloaded := gui_preloaded o; web_manager_ready := web_manager_ready o |}.

Definition with_disk (f : option file) (o : t) : t :=
  {| cache_data := cache_data o; disk := f; read_only := read_only o;
     gui_preloaded := gui_preloaded o; web_manager_ready := web_manager_ready o |}.

Definition _load_cache (o : t) : t :=
  match disk o with
  | Some f =>
      match json_load f with
      | Ok data => with_cache data o
      | Err _ => with_cache (PDict []) o
      end
  | None => o
  end.

(** [PerformanceOptimizer.__init__] over a given file system. *)
Definition init (f : option file) (ro : bool) : t :=
  _load_cache {| cache_data := PDict []; disk := f; read_only := ro;
                 gui_preloaded := false; web_manager_ready := false |}.

Definition _save_cache (o : t) : t :=
  if read_only o then o
  else match to_json (cache_data o) with
       | Some doc => with_disk (Some (FJson doc)) o
       | None => with_disk (Some FBroken) o
       end.

(** [now] is read from the clock only when an entry is cached. *)
Definition get_cached_environment_detection (now : Z) (o : t) : res pyval :=
  cached <-! py_get (cache_data o) "environment_detection" PNone;
  if truthy cached then
    timestamp <-! py_get cached "timestamp" (PNum 0);
    z <-! as_number timestamp;
    if bool_decide (now - z < 300) then
      is_remote <-! py_getitem cached "is_remote";
      can_gui <-! py_getitem cached "can_gui";
      Ok (PDict [("is_remote"%string, is_remote); ("can_gui"%string, can_gui)])
    else Ok PNone
  else Ok PNone.

Definition cache_environment_detection (is_remote can_gui : bool) (now : Z) (o : t)
  : res unit * t :=
  match py_setitem (cache_data o) "environment_detection"
          (PDict [("is_remote"%string, PBool is_remote);
                  ("can_gui"%string, PBool can_gui);
                  ("timestamp"%string, PNum now)]) with
  | Ok cache => (Ok (), _save_cache (with_cache cache o))
  | Err e => (Err e, o)
  end.

(** [if force_web or is_remote or not can_gui]. *)
Definition interface_for (force_web is_remote can_gui : bool) : string :=
  if force_web || is_remote || negb can_gui then "web" else "gui".

(** [detected_remote] and [detected_gui] are what [is_remote_environment()]
    and [can_use_gui()] answer if they are called; [now_check] and [now_store]
    are the readings of the clock when the cache is checked and when the
    detection is stored. *)
Definition get_optimal_interface_choice (force_web : bool)
    (now_check now_store : Z) (detected_remote detected_gui : bool) (o : t)
  : res string * t :=
  match get_cached_environment_detection now_check o with
  | Err e => (Err e, o)
  | Ok cached_env =>
      if truthy cached_env then
        match (is_remote <-! py_getitem cached_env "is_remote";
               can_gui <-! py_getitem cached_env "can_gui";
               Ok (interface_for force_web (truthy is_remote) (truthy can_gui))) with
        | Ok choice => (Ok choice, o)
        | Err e => (Err e, o)
        end
      else
        match cache_environment_detection detected_remote detected_gui now_store o with
        | (Ok _, o') =>
            (Ok (interface_for force_web detected_remote detected_gui), o')
        | (Err e, o') => (Err e, o')
        end
  end.

End PerformanceOptimizer.

(** The three assignments of [update_session_feedback] on a record. *)
Definition with_feedback (feedback images : pyval) (d : list (string * pyval)) : pyval :=
  PDict (dict_set "status" (PStr "completed")
           (dict_set "images" images (dict_set "feedback_result" feedback d))).

(** ** Concrete states

    The states on which the properties below are exercised. Every session
    identifier in them is a string, so the rendering of other values as file
    names plays no role. *)
Module Example.

Definition py_str : pyval -> string := fun _ => "object"%string.

(** A fresh manager over an empty session directory. *)
Definition w_idle : world :=
  {| mgr := init_manager; store := ∅; unwritable := ∅; tasks := [] |}.

(** The record of session [s1], last refreshed at time 100. *)
Definition record : pyval := new_session "s1" "/tmp/proj" "test" 100 100.

(** [s1] is the current session and has been saved. *)
Definition w_session : world :=
  _save_session_state py_str (set_session record w_idle).

(** Persistent mode, [s1] current, the heartbeat task started and suspended
    in its first sleep. *)
Definition w_beating : world :=
  heartbeat_loop py_str 0 0 (start_heartbeat (enable_persistent_mode w_session)).



(** Probes of [_test_connection] that all answer [False]. *)
Definition probe_down : nat -> res bool := fun _ => Ok false.

(** Probes that fail twice and then succeed. *)
Definition probe_third : nat -> res bool :=
  fun k => if (k <? 2)%nat then Ok false else Ok true.

(** A manager in persistent mode that allows 3 reconnection attempts. *)
Definition m_three : manager :=
  {| is_persistent_mode := true;
     heartbeat_interval := 30;
     reconnect_delay := 5;
     max_reconnect_attempts := 3;
     current_session := PNone;
     heartbeat_task := None;
     is_running := false |}.

(** A wrapped function that fails with a connection error when no session is
    current, restoring [s1] on the way, and succeeds otherwise. *)
Definition lost : exn := mkExn "ConnectionError" "Connection reset by peer".

Definition flaky (w : world) : outcome * world :=
  match session w with
  | PNone => (Raise lost, (restore_session py_str (PStr "s1") w).2)
  | _ => (Return (PStr "done"), w)
  end.

(** Persistent mode over a directory that holds [s1], no session current. *)
Definition w_on : world :=
  enable_persistent_mode (set_session PNone w_session).



(** A clock that reads 200 at every call. *)
Definition clock_200 : nat -> Z := fun _ => 200.

(** A directory with a file that does not parse next to the file of [s1]. *)
Definition w_broken : world :=
  {| mgr := init_manager;
     store := <["old" := FBroken]> (store w_session);
     unwritable := ∅; tasks := [] |}.

End Example.

(** ** Vocabulary of the statements *)

(** [record["status"] == "completed"]. *)
Definition is_completed (record : pyval) : bool :=
  match record with
  | PDict d =>
      match dict_get "status" d with
      | Some (PStr s) => String.eqb s "completed"
      | _ => false
      end
  | _ => false
  end.

(** The record has a [feedback_result] that is not [None]. *)
Definition has_feedback (record : pyval) : bool :=
  match record with
  | PDict d =>
      match dict_get "feedback_result" d with
      | Some PNone | None => false
      | Some _ => true
      end
  | _ => false
  end.

(** A completed record carries its feedback. *)
Definition record_ok (record : pyval) : bool :=
  implb (is_completed record) (has_feedback record).

(** The invariant on the current session and on every file that parses. *)
Definition records_ok (w : world) : Prop :=
  record_ok (session w) = true /\
  forall k doc, store w !! k = Some (FJson doc) -> record_ok doc = true.

(** [record["last_heartbeat"]] when it is a number. *)
Definition last_heartbeat_of (record : pyval) : option Z :=
  match record with
  | PDict d =>
      match dict_get "last_heartbeat" d with
      | Some (PNum z) => Some z
      | _ => None
      end
  | _ => None
  end.

(** Number of occurrences of an event in a log, and time slept. *)
Definition count (e : event) (log : list event) : nat :=
  length (filter (fun x => x = e) log).

Fixpoint total_sleep (log : list event) : Z :=
  match log with
  | [] => 0
  | Sleep d :: r => d + total_sleep r
  | _ :: r => total_sleep r
  end.

(** The log of [p] reconnection attempts: each sleeps [delay], then probes. *)
Definition attempts_log (delay : Z) (p : nat) : list event :=
  concat (replicate p [Sleep delay; Probe]).

Section Operations.

Variable py_str : pyval -> string.

(** The operations of the manager, with the clock readings and random bytes
    they consume. [OpFeedback] passes a string as feedback. *)
Inductive operation : Type :=
| OpEnable
| OpCreate (rnd t_created t_heartbeat : Z) (project_directory summary : string)
| OpRestore (session_id : pyval)
| OpFeedback (feedback : string) (images : pyval)
| OpHeartbeat (now : Z)
| OpSave
| OpCleanup (current_time max_age_hours : Z)
| OpStart
| OpResume (i : nat) (now : Z)
| OpStop (in_loop : bool).

Definition perform (op : operation) (w : world) : world :=
  match op with
  | OpEnable => enable_persistent_mode w
  | OpCreate rnd t1 t2 p s => (create_persistent_session py_str rnd t1 t2 p s w).2
  | OpRestore session_id => (restore_session py_str session_id w).2
  | OpFeedback feedback images =>
      (update_session_feedback py_str (PStr feedback) images w).2
  | OpHeartbeat now => _send_heartbeat py_str now w
  | OpSave => _save_session_state py_str w
  | OpCleanup t h => cleanup_old_sessions t h w
  | OpStart => start_heartbeat w
  | OpResume i now => heartbeat_loop py_str i now w
  | OpStop in_loop => (stop py_str in_loop w).2
  end.

Definition run (ops : list operation) (w : world) : world :=
  foldl (fun w op => perform op w) w ops.


(** Operations that keep the current session in place: all but creating and
    restoring one. *)
Definition keeps_session (op : operation) : bool :=
  match op with
  | OpCreate _ _ _ _ _ | OpRestore _ => false
  | _ => true
  end.

(** The clock reading an operation stores as [last_heartbeat], if any. *)
Definition reading (op : operation) : option Z :=
  match op with
  | OpHeartbeat now | OpResume _ now => Some now
  | _ => None
  end.

(** The readings taken by [ops] never go back, starting from [z]. *)
Fixpoint clock_from (z : Z) (ops : list operation) : Prop :=
  match ops with
  | [] => True
  | op :: r =>
      match reading op with
      | Some t => z <= t /\ clock_from t r
      | None => clock_from z r
      end
  end.

End Operations.

(** A file that [cleanup_old_sessions] removes: it can be read as a record and
    its heartbeat is more than [max_age_seconds] behind [current_time]. *)
Definition expired (current_time max_age_seconds : Z) (f : file) : bool :=
  match last_activity f with
  | Ok (_, hb) => bool_decide (current_time - hb > max_age_seconds)
  | Err _ => false
  end.

(** The keys that [_send_heartbeat] and [update_session_feedback] assign. *)
Definition mutable_key (k : string) : bool :=
  bool_decide (k ∈ ["last_heartbeat"; "feedback_result"; "images"; "status"]%string).

(** A dictionary after the assignments [d[k] = v] of [updates], in order. *)
Definition dict_update (updates : list (string * pyval)) (d : list (string * pyval))
  : list (string * pyval) :=
  foldl (fun d kv => dict_set kv.1 kv.2 d) d updates.

(** The entry that [cache_environment_detection] stores. *)
Definition detection_entry (is_remote can_gui : bool) (timestamp : Z) : pyval :=
  PDict [("is_remote"%string, PBool is_remote); ("can_gui"%string, PBool can_gui);
         ("timestamp"%string, PNum timestamp)].


(** * The resilience test

    [test_network_resilience.py]: the coroutine [test_persistent_connection],
    run by [asyncio.run]. Its prints and the simulated network, which the
    manager never consults, are left out. At each [await] that suspends the
    coroutine the event loop may resume other tasks; [sched1], [sched2] and
    [sched3] are what it resumes during [asyncio.sleep(5)], during the sleep
    of [handle_connection_loss] and while the test waits for the network. *)
Section ResilienceTest.

Variable py_str : pyval -> string.




End ResilienceTest.

(** ** Further concrete states *)
Module Sample.

(** The fields of the record of session [s1]. *)
Definition fields : list (string * pyval) :=
  [("session_id", PStr "s1"); ("project_directory", PStr "/tmp/proj");
   ("summary", PStr "test"); ("created_at", PNum 100);
   ("last_heartbeat", PNum 100); ("status", PStr "active");
   ("feedback_result", PNone); ("images", PList []);
   ("command_logs", PList [])]%string.

(** A directory whose file [s9] holds the JSON array [[1]]. *)
Definition w_array : world :=
  {| mgr := init_manager;
     store := {[ "s9"%string := FJson (PList [PNum 1]) ]};
     unwritable := ∅; tasks := [] |}.

(** [s1] is current, saved and completed. *)
Definition w_done : world :=
  (update_session_feedback Example.py_str (PStr "looks good") (PList [])
     Example.w_session).2.

(** No session current, persistent mode off, [s1] on disk. *)
Definition w_off : world := set_session PNone Example.w_session.

(** A configuration manager started without a file, one started on a file
    that does not parse, and one whose cache holds a language that the file
    does not have. *)
Definition config_new : ConfigManager.t := ConfigManager.init None false.

Definition config_broken : ConfigManager.t := ConfigManager.init (Some FBroken) false.

Definition config_ahead : ConfigManager.t :=
  {| ConfigManager._config_cache := PDict [("language"%string, PStr "en")];
     ConfigManager.disk := Some (FJson (PDict [("combined_mode"%string, PBool false)]));
     ConfigManager.read_only := false |}.

(** An optimizer started without a cache file. *)
Definition optimizer_new : PerformanceOptimizer.t :=
  PerformanceOptimizer.init None false.

End Sample.

(** * Properties *)

(** ** Values, dictionaries and JSON *)

Lemma pyval_ind' (P : pyval -> Prop) :
  P PNone ->
  (forall b, P (PBool b)) ->
  (forall z, P (PNum z)) ->
  (forall s, P (PStr s)) ->
  (forall l, Forall P l -> P (PList l)) ->
  (forall l, Forall P l -> P (PTuple l)) ->
  (forall d, Forall (fun kv => P kv.2) d -> P (PDict d)) ->
  (forall b, P (PBytes b)) ->
  forall v, P v.
Proof.
  intros HNone HBool HNum HStr HList HTuple HDict HBytes.
  fix IH 1.
  intros [ | b | z | s | l | l | d | b ];
    [exact HNone | apply HBool | apply HNum | apply HStr | | | | apply HBytes].
  - apply HList. induction l as [|x l IHl]; constructor; [apply IH | exact IHl].
  - apply HTuple. induction l as [|x l IHl]; constructor; [apply IH | exact IHl].
  - apply HDict. induction d as [|[k x] d IHd]; constructor; [apply IH | exact IHd].
Qed.

Lemma dict_get_set_eq k v d : dict_get k (dict_set k v d) = Some v.
Proof.
  induction d as [|[k' v'] d IH]; simpl.
  - by rewrite String.eqb_refl.
  - destruct (String.eqb k k') eqn:E; simpl; rewrite ?String.eqb_refl, ?E; done.
Qed.

Lemma dict_get_set_ne k k' v d :
  k <> k' -> dict_get k (dict_set k' v d) = dict_get k d.
Proof.
  intros Hne. induction d as [|[k0 v0] d IH]; simpl.
  - destruct (String.eqb_spec k k'); congruence.
  - destruct (String.eqb_spec k' k0) as [->|Hk0]; simpl.
    + destruct (String.eqb_spec k k0); congruence.
    + by rewrite IH.
Qed.

Lemma dict_set_nonempty k v d : dict_set k v d <> [].
Proof. destruct d as [|[k' v'] d]; simpl; [done|]. by destruct (String.eqb k k'). Qed.


Lemma truthy_dict d : d <> [] -> truthy (PDict d) = true.
Proof. by destruct d. Qed.

(** A value made of [None], booleans, numbers, strings, lists and
    dictionaries is read back as written. *)
Lemma to_json_native v : json_native v = true -> to_json v = Some v.
Proof.
  induction v as [ | b | z | s | l IH | l IH | d IH | b ] using pyval_ind';
    simpl; try done.
  - intros Hl. assert (mapM to_json l = Some l) as ->; [|done].
    apply mapM_Some. induction IH as [|x l Hx _ IHl]; simpl in Hl; [constructor|].
    apply andb_prop in Hl as [H1 H2]. constructor; auto.
  - intros Hd.
    assert (mapM (fun kv => pair kv.1 <$> to_json kv.2) d = Some d) as ->; [|done].
    apply mapM_Some. induction IH as [|[k x] d Hx _ IHd]; simpl in Hd; [constructor|].
    apply andb_prop in Hd as [H1 H2]. constructor; auto.
    simpl in *. by rewrite Hx.
Qed.

(** Reading a key of the dictionary read back from a JSON file. *)
Lemma dict_get_to_json k d d' :
  mapM (fun kv => pair kv.1 <$> to_json kv.2) d = Some d' ->
  match dict_get k d with
  | Some v => exists v', to_json v = Some v' /\ dict_get k d' = Some v'
  | None => dict_get k d' = None
  end.
Proof.
  rewrite mapM_Some. induction 1 as [|[k0 v0] [k1 v1] d d' H _ IH]; simpl; [done|].
  simpl in H. destruct (to_json v0) as [v0'|] eqn:E; simpl in H; [|done].
  injection H as <- <-. destruct (String.eqb k k0); eauto.
Qed.

Lemma to_json_dict d doc :
  to_json (PDict d) = Some doc ->
  exists d', doc = PDict d' /\
             mapM (fun kv => pair kv.1 <$> to_json kv.2) d = Some d'.
Proof.
  simpl. destruct (mapM _ d) as [d'|] eqn:E; simpl; [|done].
  intros [= <-]. eauto.
Qed.

Lemma to_json_str_inv v s : to_json v = Some (PStr s) -> v = PStr s.
Proof.
  destruct v; simpl; try congruence;
    match goal with |- context [mapM ?f ?l] => destruct (mapM f l) end; done.
Qed.

Lemma to_json_none_inv v : to_json v = Some PNone -> v = PNone.
Proof.
  destruct v; simpl; try congruence;
    match goal with |- context [mapM ?f ?l] => destruct (mapM f l) end; done.
Qed.

(** ** Identifiers have the version-4 shape *)







(** ** Saving and restoring the current session *)

Section SessionStore.

Variable py_str : pyval -> string.

Local Abbreviation save := (_save_session_state py_str).
Local Abbreviation stem := (session_file py_str).

Lemma save_mgr w : mgr (save w) = mgr w.
Proof.
  unfold _save_session_state, write_json.
  repeat case_match; reflexivity.
Qed.

Lemma save_session w : session (save w) = session w.
Proof. unfold session. by rewrite save_mgr. Qed.

Lemma save_tasks w : tasks (save w) = tasks w.
Proof.
  unfold _save_session_state, write_json.
  repeat case_match; reflexivity.
Qed.


(** What a save does to the directory: nothing, or one file rewritten. *)
Lemma save_store w :
  store (save w) = store w \/
  exists d session_id,
    session w = PDict d /\ dict_get "session_id" d = Some session_id /\
    (stem session_id ∉ unwritable w) /\
    store (save w) =
      <[stem session_id :=
          match to_json (PDict d) with Some doc => FJson doc | None => FBroken end]>
        (store w).
Proof.
  unfold _save_session_state.
  destruct (truthy (session w)) eqn:Ht; simpl; [|by left].
  destruct (session w) as [ | | | | | | d | ] eqn:Hs; simpl; try by left.
  destruct (dict_get "session_id" d) as [sid|] eqn:Hid; simpl; [|by left].
  unfold write_json. case_bool_decide as Hw; simpl; [by left|].
  right. exists d, sid. repeat split; try done.
  by destruct (mapM _ d).
Qed.

(** A save that succeeds leaves the record, as JSON, in the file named by its
    [session_id]. *)
Lemma save_written w d session_id doc :
  session w = PDict d ->
  dict_get "session_id" d = Some session_id ->
  stem session_id ∉ unwritable w ->
  to_json (PDict d) = Some doc ->
  store (save w) = <[stem session_id := FJson doc]> (store w).
Proof.
  intros Hs Hid Hw Hj. unfold _save_session_state. rewrite Hs.
  assert (truthy (PDict d) = true) as -> by (by destruct d).
  unfold py_getitem. rewrite Hid. unfold write_json. simpl negb. cbv iota.
  rewrite bool_decide_eq_false_2 by done. by rewrite Hj.
Qed.

Lemma set_session_session s w : session (set_session s w) = s.
Proof. reflexivity. Qed.

Lemma set_session_store s w : store (set_session s w) = store w.
Proof. reflexivity. Qed.


(** C10. With no current session ([current_session] is [None]),
    [update_session_feedback] returns normally and changes nothing: neither
    the manager nor the session directory; the feedback is dropped. *)
Theorem update_session_feedback_no_session feedback images w :
  session w = PNone ->
  update_session_feedback py_str feedback images w = (Ok (), w).
Proof. intros Hs. unfold update_session_feedback. by rewrite Hs. Qed.

Lemma update_session_feedback_record feedback images w d :
  session w = PDict d -> d <> [] ->
  update_session_feedback py_str feedback images w =
    (Ok (), save (set_session (with_feedback feedback images d) w)).
Proof.
  intros Hs Hd. unfold update_session_feedback. rewrite Hs.
  by rewrite truthy_dict.
Qed.

Lemma with_feedback_session_id feedback images d :
  py_getitem (with_feedback feedback images d) "session_id" =
  py_getitem (PDict d) "session_id".
Proof.
  unfold with_feedback, py_getitem. by rewrite !dict_get_set_ne by done.
Qed.





(** What [restore_session] returns in general after a successful save: the
    value [json.load] reads back. *)
Lemma save_restore_json w d session_id doc :
  session w = PDict d ->
  dict_get "session_id" d = Some session_id ->
  (stem session_id ∉ unwritable w) ->
  to_json (PDict d) = Some doc ->
  (restore_session py_str session_id (save w)).1 = doc.
Proof.
  intros Hs Hid Hw Hj. unfold restore_session.
  rewrite (save_written w d session_id doc Hs Hid Hw Hj).
  by rewrite lookup_insert_eq.
Qed.

End SessionStore.

(** ** The heartbeat timestamp *)

Section Heartbeat.

Variable py_str : pyval -> string.

Local Abbreviation save := (_save_session_state py_str).
Local Abbreviation beat := (_send_heartbeat py_str).

Lemma send_heartbeat_record now w d :
  session w = PDict d -> d <> [] ->
  beat now w = save (set_session (PDict (dict_set "last_heartbeat" (PNum now) d)) w).
Proof.
  intros Hs Hd. unfold _send_heartbeat. rewrite Hs. by rewrite truthy_dict.
Qed.

Lemma send_heartbeat_other now w :
  (forall d, session w = PDict d -> d = []) -> beat now w = w.
Proof.
  intros Hs. unfold _send_heartbeat.
  destruct (session w) as [ | b | z | s | l | l | d | b ] eqn:E; simpl.
  7: by rewrite (Hs d eq_refl).
  all: by repeat case_match.
Qed.

Lemma send_heartbeat_session now w :
  session (beat now w) = session w \/
  exists d, session w = PDict d /\ d <> [] /\
            session (beat now w) = PDict (dict_set "last_heartbeat" (PNum now) d).
Proof.
  destruct (session w) as [ | | | | | | d | ] eqn:E;
    try (left; rewrite send_heartbeat_other; [done | intros d' Hd'; congruence]).
  destruct d as [|kv d].
  - left. rewrite send_heartbeat_other; [done | intros d' Hd'; congruence].
  - right. exists (kv :: d). split_and!; try done.
    erewrite send_heartbeat_record by done.
    by rewrite save_session.
Qed.

Lemma heartbeat_loop_session i now w :
  session (heartbeat_loop py_str i now w) = session w \/
  session (heartbeat_loop py_str i now w) = session (beat now w).
Proof.
  unfold heartbeat_loop. destruct (tasks w !! i) as [t|]; [|by left].
  destruct (task_st t); [| |by left].
  - repeat case_match; by left.
  - destruct (cancel_requested t); [by left|].
    destruct (is_running (mgr w)); repeat case_match; by (left + right).
Qed.

Lemma cancel_task_session i w : session (cancel_task i w) = session w.
Proof. unfold cancel_task. repeat case_match; reflexivity. Qed.

Lemma request_stop_session w : session (request_stop w) = session w.
Proof.
  unfold request_stop. cbn [heartbeat_task set_mgr with_running mgr].
  destruct (heartbeat_task (mgr w)); [by rewrite cancel_task_session|done].
Qed.

Lemma stop_session in_loop w : session (stop py_str in_loop w).2 = session w.
Proof.
  unfold stop. rewrite request_stop_session.
  destruct (truthy (session w)); [destruct in_loop|]; cbn [snd];
    by rewrite ?save_session, request_stop_session.
Qed.

Lemma last_heartbeat_set now d :
  last_heartbeat_of (PDict (dict_set "last_heartbeat" (PNum now) d)) = Some now.
Proof. unfold last_heartbeat_of. by rewrite dict_get_set_eq. Qed.

Lemma last_heartbeat_with_feedback feedback images d :
  last_heartbeat_of (with_feedback feedback images d) = last_heartbeat_of (PDict d).
Proof.
  unfold last_heartbeat_of, with_feedback. by rewrite !dict_get_set_ne by done.
Qed.

(** One operation on the current session: the timestamp stays or becomes the
    reading of the operation. *)
Lemma perform_last_heartbeat op w z :
  keeps_session op = true ->
  last_heartbeat_of (session w) = Some z ->
  last_heartbeat_of (session (perform py_str op w)) = Some z \/
  exists t, reading op = Some t /\
            last_heartbeat_of (session (perform py_str op w)) = Some t.
Proof.
  intros Hk Hz.
  assert (forall now,
    last_heartbeat_of (session (beat now w)) = Some z \/
    last_heartbeat_of (session (beat now w)) = Some now) as Hbeat.
  { intros now. destruct (send_heartbeat_session now w) as [->|(d & _ & _ & ->)];
      [by left | right; apply last_heartbeat_set]. }
  destruct op; try discriminate Hk; cbn [perform reading].
  - by left.
  - left. destruct (session w) as [ | | | | | | d | ] eqn:Hs; try discriminate Hz.
    destruct d as [|kv d]; [discriminate Hz|].
    rewrite (update_session_feedback_record py_str _ _ _ _ Hs) by done.
    cbn [snd]. by rewrite save_session, set_session_session, last_heartbeat_with_feedback.
  - destruct (Hbeat now) as [?|?]; [by left | right; eauto].
  - left. by rewrite save_session.
  - by left.
  - left. unfold start_heartbeat. by case_match.
  - destruct (heartbeat_loop_session i now w) as [->| ->]; [by left|].
    destruct (Hbeat now) as [?|?]; [by left | right; eauto].
  - left. by rewrite stop_session.
Qed.

Lemma run_last_heartbeat ops : forall w z bound,
  forallb keeps_session ops = true ->
  last_heartbeat_of (session w) = Some z ->
  z <= bound ->
  clock_from bound ops ->
  exists z', last_heartbeat_of (session (run py_str ops w)) = Some z' /\ z <= z'.
Proof.
  induction ops as [|op ops IH]; intros w z bound Hk Hz Hb Hc.
  - exists z. split; [done | lia].
  - cbn [forallb] in Hk. apply andb_prop in Hk as [Hk1 Hk2].
    cbn [run foldl]. cbn [clock_from] in Hc.
    destruct (perform_last_heartbeat op w z Hk1 Hz) as [Hz'|(t & Ht & Hz')].
    + destruct (reading op) as [t|].
      * destruct Hc as [Hbt Hc].
        destruct (IH _ z t Hk2 Hz' ltac:(lia) Hc) as (z' & ? & ?). eauto.
      * destruct (IH _ z bound Hk2 Hz' Hb Hc) as (z' & ? & ?). eauto.
    + rewrite Ht in Hc. destruct Hc as [Hbt Hc].
      destruct (IH _ t t Hk2 Hz' ltac:(lia) Hc) as (z' & ? & ?).
      exists z'. split; [done | lia].
Qed.

(** C9, amended. A heartbeat tick sets [last_heartbeat] of the current record
    to the clock reading and a feedback update leaves it as it is. Across any
    sequence of operations on the current session (ticks, resumptions of the
    heartbeat task, feedback updates, saves, sweeps, start and stop) it does
    not decrease, provided the clock readings never go back from the value it
    starts with. *)
Theorem last_heartbeat_monotone w d z :
  session w = PDict d ->
  last_heartbeat_of (PDict d) = Some z ->
  (forall now,
     last_heartbeat_of (session (_send_heartbeat py_str now w)) = Some now) /\
  (forall feedback images,
     last_heartbeat_of
       (session (update_session_feedback py_str feedback images w).2) = Some z) /\
  (forall ops,
     forallb keeps_session ops = true ->
     clock_from z ops ->
     exists z', last_heartbeat_of (session (run py_str ops w)) = Some z' /\ z <= z').
Proof.
  intros Hs Hz.
  assert (d <> []) as Hd by (intros ->; discriminate Hz).
  split_and!.
  - intros now. rewrite (send_heartbeat_record now w d Hs Hd).
    by rewrite save_session, set_session_session, last_heartbeat_set.
  - intros feedback images.
    rewrite (update_session_feedback_record py_str _ _ _ _ Hs Hd). cbn [snd].
    by rewrite save_session, set_session_session, last_heartbeat_with_feedback.
  - intros ops Hk Hc.
    apply (run_last_heartbeat ops w z z); [done | by rewrite Hs | lia | done].
Qed.

End Heartbeat.

(** ** Completed records carry their feedback *)

Lemma record_ok_to_json v doc :
  to_json v = Some doc -> record_ok v = true -> record_ok doc = true.
Proof.
  intros Hj Hv. destruct v as [ | b | z | s | l | l | d | b ]; simpl in Hj.
  1-4, 8: by simplify_eq.
  1-2: by destruct (mapM to_json l); simplify_eq/=.
  destruct (mapM _ d) as [d'|] eqn:Hd; simplify_eq/=.
  pose proof (dict_get_to_json "status" d d' Hd) as Hst.
  pose proof (dict_get_to_json "feedback_result" d d' Hd) as Hfb.
  unfold record_ok, is_completed, has_feedback in *.
  destruct (dict_get "status" d') as [st'|] eqn:Est'; [|done].
  destruct st' as [ | | | s' | | | | ]; try done.
  destruct (String.eqb s' "completed") eqn:Es; [|done].
  destruct (dict_get "status" d) as [st|]; [|congruence].
  destruct Hst as (st'' & Hst1 & Hst2). simplify_eq.
  apply to_json_str_inv in Hst1 as ->. rewrite Es in Hv. simpl in Hv |- *.
  destruct (dict_get "feedback_result" d) as [fb|]; [|done].
  destruct Hfb as (fb' & Hfb1 & ->).
  destruct fb'; try done. by apply to_json_none_inv in Hfb1 as ->.
Qed.

Lemma records_ok_ext w w' :
  session w' = session w -> store w' = store w -> records_ok w -> records_ok w'.
Proof. unfold records_ok. by intros -> ->. Qed.

Lemma records_ok_set_session s w :
  record_ok s = true -> records_ok w -> records_ok (set_session s w).
Proof. intros Hs [_ Hst]. by split. Qed.

Lemma cleanup_submap current_time max_age l : forall (s : gmap string file) k f,
  foldl (cleanup_file current_time max_age) s l !! k = Some f -> s !! k = Some f.
Proof.
  induction l as [|[k0 f0] l IH]; intros s k f; simpl; [done|].
  intros H. apply IH in H. unfold cleanup_file in H. simpl in H.
  destruct (last_activity f0) as [[? hb]|]; [|done].
  case_bool_decide; [|done].
  by apply lookup_delete_Some in H as [_ ?].
Qed.

Section Invariant.

Variable py_str : pyval -> string.

Local Abbreviation save := (_save_session_state py_str).
Local Abbreviation beat := (_send_heartbeat py_str).

Lemma records_ok_save w : records_ok w -> records_ok (save w).
Proof.
  intros [Hs Hst]. split; [by rewrite save_session|].
  intros k doc.
  destruct (save_store py_str w) as [->|(d & sid & Hd & _ & _ & ->)]; [apply Hst|].
  rewrite lookup_insert. case_decide; [|apply Hst].
  destruct (to_json (PDict d)) as [doc'|] eqn:Hj; [|done].
  intros [= <-]. apply (record_ok_to_json _ _ Hj). by rewrite <- Hd.
Qed.

Lemma record_ok_heartbeat now d :
  record_ok (PDict d) = true ->
  record_ok (PDict (dict_set "last_heartbeat" (PNum now) d)) = true.
Proof.
  unfold record_ok, is_completed, has_feedback.
  by rewrite !dict_get_set_ne by done.
Qed.

Lemma record_ok_with_feedback feedback images d :
  record_ok (with_feedback (PStr feedback) images d) = true.
Proof.
  unfold record_ok, is_completed, has_feedback, with_feedback.
  rewrite dict_get_set_eq. rewrite !dict_get_set_ne by done.
  by rewrite dict_get_set_eq.
Qed.

Lemma records_ok_beat now w : records_ok w -> records_ok (beat now w).
Proof.
  intros Hw. destruct (session w) as [ | b | z | s | l | l | d | b ] eqn:E;
    try (rewrite send_heartbeat_other; [done | intros d' Hd'; congruence]).
  destruct d as [|kv d];
    [rewrite send_heartbeat_other; [done | intros d' Hd'; congruence]|].
  rewrite (send_heartbeat_record py_str now w _ E) by done.
  apply records_ok_save, records_ok_set_session; [|done].
  apply record_ok_heartbeat. destruct Hw as [Hs _]. by rewrite E in Hs.
Qed.

Lemma heartbeat_loop_data i now w :
  (session (heartbeat_loop py_str i now w) = session w /\
   store (heartbeat_loop py_str i now w) = store w) \/
  (session (heartbeat_loop py_str i now w) = session (beat now w) /\
   store (heartbeat_loop py_str i now w) = store (beat now w)).
Proof.
  unfold heartbeat_loop. destruct (tasks w !! i) as [t|]; [|by left].
  destruct (task_st t); [| |by left].
  - repeat case_match; by left.
  - destruct (cancel_requested t); [by left|].
    destruct (is_running (mgr w)); repeat case_match; by (left + right).
Qed.

Lemma cancel_task_store i w : store (cancel_task i w) = store w.
Proof. unfold cancel_task. repeat case_match; reflexivity. Qed.

Lemma request_stop_store w : store (request_stop w) = store w.
Proof.
  unfold request_stop. cbn [heartbeat_task set_mgr with_running mgr].
  destruct (heartbeat_task (mgr w)); [by rewrite cancel_task_store|done].
Qed.

Lemma records_ok_stop in_loop w :
  records_ok w -> records_ok (stop py_str in_loop w).2.
Proof.
  intros Hw. unfold stop.
  assert (records_ok (request_stop w)) as Hw2.
  { refine (records_ok_ext _ _ _ _ Hw);
      [apply request_stop_session | apply request_stop_store]. }
  destruct (truthy (session (request_stop w))); [destruct in_loop|]; cbn [snd];
    by try apply records_ok_save.
Qed.

Lemma records_ok_perform op w :
  records_ok w -> records_ok (perform py_str op w).
Proof.
  intros Hw. destruct op; cbn [perform].
  - done.
  - unfold create_persistent_session. cbn [snd].
    by apply records_ok_save, records_ok_set_session.
  - unfold restore_session.
    destruct (store w !! session_file py_str session_id) as [f|] eqn:Hf; [|done].
    destruct f as [doc|]; [|done]. cbn [json_load snd].
    apply records_ok_set_session; [|done]. destruct Hw as [_ Hst]. eauto.
  - unfold update_session_feedback.
    destruct (truthy (session w)) eqn:Ht; [|done].
    destruct (session w) as [ | | | | | | d | ] eqn:Hs; try done.
    cbn [py_setitem res_bind snd].
    apply records_ok_save, records_ok_set_session; [|done].
    apply record_ok_with_feedback.
  - by apply records_ok_beat.
  - by apply records_ok_save.
  - destruct Hw as [Hs Hst]. split; [done|].
    intros k doc H. apply cleanup_submap in H. eauto.
  - unfold start_heartbeat. by case_match.
  - destruct (heartbeat_loop_data i now w) as [[H1 H2]|[H1 H2]].
    + exact (records_ok_ext _ _ H1 H2 Hw).
    + exact (records_ok_ext _ _ H1 H2 (records_ok_beat now w Hw)).
  - by apply records_ok_stop.
Qed.

(** C5. Every operation of the manager (enabling persistent mode, creating,
    restoring, a feedback update with a string, a heartbeat tick, a save, a
    sweep of old files, starting, resuming and stopping the heartbeat task)
    preserves the invariant: the current session and every file that parses
    to a record with [status = "completed"] have a [feedback_result] that is
    not null. It therefore holds after any sequence of operations. *)
Theorem completed_has_feedback ops w :
  records_ok w -> records_ok (run py_str ops w).
Proof.
  revert w. induction ops as [|op ops IH]; intros w Hw; [done|].
  cbn [run foldl]. by apply IH, records_ok_perform.
Qed.

End Invariant.

(** ** Listing the recent sessions *)

Lemma last_activity_Ok f doc hb :
  last_activity f = Ok (doc, hb) -> f = FJson doc.
Proof.
  unfold last_activity. destruct f as [doc'|]; simpl; [|done].
  destruct (py_get doc' _ _) as [v|]; simpl; [|done].
  destruct (as_number v); simpl; [|done]. congruence.
Qed.


Section Active.

Variable py_str : pyval -> string.


End Active.

(** ** Reconnection and the decorator *)

Lemma count_cons e x log :
  count e (x :: log) = ((if bool_decide (x = e) then 1 else 0) + count e log)%nat.
Proof.
  unfold count. rewrite filter_cons. case_bool_decide; case_decide; done.
Qed.


Lemma attempts_log_S delay p :
  attempts_log delay (S p) = Sleep delay :: Probe :: attempts_log delay p.
Proof. reflexivity. Qed.

Lemma attempts_log_probes delay p : count Probe (attempts_log delay p) = p.
Proof.
  induction p as [|p IH]; [done|].
  rewrite attempts_log_S, !count_cons, IH. done.
Qed.

Lemma attempts_log_sleep delay p :
  total_sleep (attempts_log delay p) = Z.of_nat p * delay.
Proof.
  induction p as [|p IH]; [done|].
  rewrite attempts_log_S. cbn [total_sleep]. rewrite IH. lia.
Qed.

Lemma attempts_log_sleeps delay p :
  count (Sleep delay) (attempts_log delay p) = p.
Proof.
  induction p as [|p IH]; [done|].
  rewrite attempts_log_S, !count_cons, IH.
  rewrite bool_decide_eq_true_2 by done. done.
Qed.


(** The loop stops at the first probe that answers [True]; a probe that
    answers [False] or raises is a failed attempt. *)
Lemma reconnect_attempts_spec probe delay remaining : forall attempt,
  exists p,
    (reconnect_attempts probe delay attempt remaining).2 = attempts_log delay p /\
    (p <= remaining)%nat /\
    (forall j, (S j < p)%nat -> probe (attempt + j)%nat <> Ok true) /\
    ((reconnect_attempts probe delay attempt remaining).1 = true ->
       exists k, p = S k /\ probe (attempt + k)%nat = Ok true) /\
    ((reconnect_attempts probe delay attempt remaining).1 = false ->
       p = remaining /\
       forall j, (j < remaining)%nat -> probe (attempt + j)%nat <> Ok true).
Proof.
  induction remaining as [|n IH]; intros attempt.
  - exists 0%nat. simpl. split_and!; try done; try lia. intros _. split; [done|lia].
  - cbn [reconnect_attempts].
    destruct (IH (S attempt)) as (p & Hlog & Hle & Hbefore & Htrue & Hfalse).
    assert (probe attempt = Ok true \/ probe attempt <> Ok true) as [Hp|Hp].
    { destruct (probe attempt) as [[|]|]; by (left + right). }
    + rewrite Hp. exists 1%nat. cbn [fst snd]. split_and!; try done; try lia.
      intros _. exists 0%nat. by rewrite Nat.add_0_r.
    + assert (match probe attempt with
              | Ok true => (true, [Sleep delay; Probe])
              | _ => let '(ok, log) := reconnect_attempts probe delay (S attempt) n in
                     (ok, Sleep delay :: Probe :: log)
              end =
              ((reconnect_attempts probe delay (S attempt) n).1,
               Sleep delay :: Probe :: (reconnect_attempts probe delay (S attempt) n).2))
        as ->.
      { destruct (reconnect_attempts probe delay (S attempt) n).
        by destruct (probe attempt) as [[|]|]. }
      cbn [fst snd]. exists (S p). split_and!.
      * by rewrite Hlog.
      * lia.
      * intros [|j] Hj; [by rewrite Nat.add_0_r|].
        replace (attempt + S j)%nat with (S attempt + j)%nat by lia.
        apply Hbefore. lia.
      * intros Hok. destruct (Htrue Hok) as (k & -> & Hk).
        exists (S k). split; [done|].
        by replace (attempt + S k)%nat with (S attempt + k)%nat by lia.
      * intros Hok. destruct (Hfalse Hok) as [-> Hall]. split; [done|].
        intros [|j] Hj; [by rewrite Nat.add_0_r|].
        replace (attempt + S j)%nat with (S attempt + j)%nat by lia.
        apply Hall. lia.
Qed.

(** C2. [handle_connection_loss] returns [False] at once, with no probe and no
    sleep, when persistent mode is off. Otherwise it makes [p] attempts, each a
    sleep of [reconnect_delay] followed by a probe, with [p] at most
    [max_reconnect_attempts]; it returns [True] exactly when attempt [p] is
    the first whose probe succeeds, and [False] after
    [max_reconnect_attempts] failed probes. With 3 attempts allowed and a
    probe that never succeeds it returns [False] after exactly 3 probes and
    3 times [reconnect_delay] of sleep. The defaults are 10 attempts and 5
    seconds. *)
Theorem handle_connection_loss_bounded probe m :
  let r := handle_connection_loss probe m in
  (max_reconnect_attempts init_manager = 10 /\ reconnect_delay init_manager = 5) /\
  (is_persistent_mode m = false -> r = (false, [])) /\
  (is_persistent_mode m = true ->
     exists p,
       r.2 = attempts_log (reconnect_delay m) p /\
       count Probe r.2 = p /\
       count (Sleep (reconnect_delay m)) r.2 = p /\
       total_sleep r.2 = Z.of_nat p * reconnect_delay m /\
       (p <= Z.to_nat (max_reconnect_attempts m))%nat /\
       (forall j, (S j < p)%nat -> probe j <> Ok true) /\
       (r.1 = true -> exists k, p = S k /\ probe k = Ok true) /\
       (r.1 = false ->
          p = Z.to_nat (max_reconnect_attempts m) /\
          forall j, (j < p)%nat -> probe j <> Ok true)) /\
  (is_persistent_mode m = true ->
     max_reconnect_attempts m = 3 ->
     (forall j, probe j <> Ok true) ->
     r.1 = false /\ count Probe r.2 = 3%nat /\
     3 * reconnect_delay m <= total_sleep r.2).
Proof.
  intros r. subst r. unfold handle_connection_loss.
  assert (is_persistent_mode m = true ->
     exists p,
       (reconnect_attempts probe (reconnect_delay m) 0
          (Z.to_nat (max_reconnect_attempts m))).2 =
         attempts_log (reconnect_delay m) p /\
       (p <= Z.to_nat (max_reconnect_attempts m))%nat /\
       (forall j, (S j < p)%nat -> probe j <> Ok true) /\
       ((reconnect_attempts probe (reconnect_delay m) 0
          (Z.to_nat (max_reconnect_attempts m))).1 = true ->
        exists k, p = S k /\ probe k = Ok true) /\
       ((reconnect_attempts probe (reconnect_delay m) 0
          (Z.to_nat (max_reconnect_attempts m))).1 = false ->
          p = Z.to_nat (max_reconnect_attempts m) /\
          forall j, (j < p)%nat -> probe j <> Ok true)) as Hloop.
  { intros _.
    destruct (reconnect_attempts_spec probe (reconnect_delay m)
                (Z.to_nat (max_reconnect_attempts m)) 0%nat)
      as (p & Hlog & Hle & Hbefore & Htrue & Hfalse).
    exists p. split_and!; try done.
    intros Hok. destruct (Hfalse Hok) as [-> Hall]. done. }
  split_and!; try done.
  - by intros ->.
  - intros Hp. rewrite Hp. cbn [negb].
    destruct (Hloop Hp) as (p & Hlog & Hle & Hbefore & Htrue & Hfalse).
    exists p. rewrite Hlog.
    split_and!; auto using attempts_log_probes, attempts_log_sleeps, attempts_log_sleep.
  - intros Hp Hmax Hdown. rewrite Hp. cbn [negb].
    destruct (Hloop Hp) as (p & Hlog & Hle & Hbefore & Htrue & Hfalse).
    destruct (reconnect_attempts probe (reconnect_delay m) 0
                (Z.to_nat (max_reconnect_attempts m))) as [[|] log] eqn:E;
      cbn [fst snd] in *.
    + destruct (Htrue eq_refl) as (k & _ & Hk). by destruct (Hdown k).
    + destruct (Hfalse eq_refl) as [-> _]. rewrite Hlog, Hmax.
      split_and!; [done | apply attempts_log_probes |].
      rewrite attempts_log_sleep. lia.
Qed.


(** A value, or an exception outside [Exception], goes straight through. *)
Lemma with_persistent_connection_passes probe func w r w2 :
  func (ensure_heartbeat w) = (r, w2) ->
  (forall e, r <> Raise e) ->
  with_persistent_connection probe func w = (r, w2, [CallFunc]).
Proof.
  intros Hf Hr. unfold with_persistent_connection. rewrite Hf.
  destruct r; try done. by destruct (Hr e).
Qed.


(** ** Stopping the manager *)











Section Stop.

Variable py_str : pyval -> string.

Local Abbreviation save := (_save_session_state py_str).
Local Abbreviation stem := (session_file py_str).











End Stop.

(** ** Sweeping old session files *)

Lemma cleanup_file_expired current_time max_age s kf :
  cleanup_file current_time max_age s kf =
    if expired current_time max_age kf.2 then delete kf.1 s else s.
Proof.
  unfold cleanup_file, expired.
  destruct (last_activity kf.2) as [[? hb]|]; [|done]. by case_bool_decide.
Qed.

Lemma cleanup_fold_lookup current_time max_age l : forall (s : gmap string file) k,
  ((exists f, (k, f) ∈ l /\ expired current_time max_age f = true) ->
   foldl (cleanup_file current_time max_age) s l !! k = None) /\
  ((forall f, (k, f) ∈ l -> expired current_time max_age f = false) ->
   foldl (cleanup_file current_time max_age) s l !! k = s !! k).
Proof.
  induction l as [|[k0 f0] l IH]; intros s k; cbn [foldl].
  - split; [|done]. intros (f & Hin & _). by apply elem_of_nil in Hin.
  - rewrite cleanup_file_expired. cbn [fst snd].
    destruct (IH (if expired current_time max_age f0 then delete k0 s else s) k)
      as [IH1 IH2].
    split.
    + intros (f & Hin & Hf).
      assert ((exists f', (k, f') ∈ l /\ expired current_time max_age f' = true) \/
              forall f', (k, f') ∈ l -> expired current_time max_age f' = false)
        as [Hl|Hl].
      { clear -l. induction l as [|[k1 f1] l IHl].
        - right. intros f' Hin. by apply elem_of_nil in Hin.
        - destruct IHl as [(f' & ? & ?)|Hno].
          + left. exists f'. split; [by apply elem_of_cons; right|done].
          + destruct (decide (k = k1)) as [->|Hk];
              [destruct (expired current_time max_age f1) eqn:E|].
            * left. exists f1. split; [apply elem_of_cons; by left|done].
            * right. intros f' Hin'.
              apply elem_of_cons in Hin' as [[= ->]|?]; [done|by apply Hno].
            * right. intros f' Hin'.
              apply elem_of_cons in Hin' as [[= ? ?]|?]; [done|by apply Hno]. }
      * by apply IH1.
      * rewrite IH2 by done.
        apply elem_of_cons in Hin as [[= -> ->]|Hin].
        -- rewrite Hf. apply lookup_delete_eq.
        -- rewrite (Hl f Hin) in Hf. discriminate Hf.
    + intros Hno. rewrite IH2.
      * destruct (expired current_time max_age f0) eqn:Hf0; [|done].
        destruct (decide (k = k0)) as [->|Hk]; [|by rewrite lookup_delete_ne].
        rewrite (Hno f0) in Hf0; [done|]. apply elem_of_cons. by left.
      * intros f Hin. apply Hno. apply elem_of_cons. by right.
Qed.

Lemma cleanup_store_lookup current_time max_age_hours w k :
  store (cleanup_old_sessions current_time max_age_hours w) !! k =
    match store w !! k with
    | Some f =>
        if expired current_time (max_age_hours * 3600) f then None else Some f
    | None => None
    end.
Proof.
  unfold cleanup_old_sessions. cbn [set_store store].
  destruct (cleanup_fold_lookup current_time (max_age_hours * 3600)
              (map_to_list (store w)) (store w) k) as [Hdel Hkeep].
  destruct (store w !! k) as [f|] eqn:Hk.
  - destruct (expired current_time (max_age_hours * 3600) f) eqn:Hf.
    + apply Hdel. exists f. split; [by apply elem_of_map_to_list|done].
    + rewrite Hkeep; [done|].
      intros f' Hin. apply elem_of_map_to_list in Hin. congruence.
  - rewrite Hkeep; [done|].
    intros f' Hin. apply elem_of_map_to_list in Hin. congruence.
Qed.


(** X2. A second sweep with the same clock reading and the same age limit
    changes nothing: the set of files after two sweeps is the set after one. *)
Theorem cleanup_old_sessions_idempotent current_time max_age_hours w :
  cleanup_old_sessions current_time max_age_hours
    (cleanup_old_sessions current_time max_age_hours w) =
  cleanup_old_sessions current_time max_age_hours w.
Proof.
  assert (store (cleanup_old_sessions current_time max_age_hours
                   (cleanup_old_sessions current_time max_age_hours w)) =
          store (cleanup_old_sessions current_time max_age_hours w)) as Hst.
  { apply map_eq. intros k. rewrite !cleanup_store_lookup.
    destruct (store w !! k) as [f|]; [|done].
    destruct (expired current_time (max_age_hours * 3600) f) eqn:Hf; [done|].
    by rewrite Hf. }
  unfold cleanup_old_sessions in *. cbn [set_store store mgr unwritable tasks] in *.
  by rewrite Hst.
Qed.

(** ** Restoring, and listing, with files that cannot be read *)

Lemma scan_sessions_sound clock files : forall i sessions doc,
  doc ∈ scan_sessions clock i files sessions ->
  doc ∈ sessions \/
  exists j k hb,
    files !! j = Some (k, FJson doc) /\
    last_activity (FJson doc) = Ok (doc, hb) /\
    clock (i + j)%nat - hb < 86400.
Proof.
  induction files as [|[k f] files IH]; intros i sessions doc; cbn [scan_sessions].
  - by left.
  - destruct (last_activity f) as [[data hb]|] eqn:Hf; [|by left].
    pose proof (last_activity_Ok _ _ _ Hf) as ->.
    assert (forall acc : list pyval,
      (doc ∈ acc \/
       exists j k' hb',
         files !! j = Some (k', FJson doc) /\
         last_activity (FJson doc) = Ok (doc, hb') /\
         clock (S i + j)%nat - hb' < 86400) ->
      doc ∈ acc \/
      exists j k' hb',
        ((k, FJson data) :: files) !! j = Some (k', FJson doc) /\
        last_activity (FJson doc) = Ok (doc, hb') /\
        clock (i + j)%nat - hb' < 86400) as Hshift.
    { intros acc [?|(j & k' & hb' & ? & ? & ?)]; [by left|right].
      exists (S j), k', hb'. split_and!; try done.
      by replace (i + S j)%nat with (S i + j)%nat by lia. }
    case_bool_decide as Hrecent; intros Hin; apply IH in Hin.
    + destruct Hin as [Hin|Hex]; [|apply Hshift; by right].
      apply elem_of_app in Hin as [?|Hin]; [by left|].
      apply list_elem_of_singleton in Hin as ->. right.
      exists 0%nat, k, hb. split_and!; try done. by rewrite Nat.add_0_r.
    + by apply Hshift.
Qed.



Section Restore.

Variable py_str : pyval -> string.

Local Abbreviation save := (_save_session_state py_str).
Local Abbreviation stem := (session_file py_str).

(** X3. [restore_session] does not look at what it restores. When the file
    is missing or does not parse it returns [None] and changes nothing. When
    the file parses to a value that is not a dictionary, that value becomes
    the current session: if it is true-like (a non-empty list, a number, a
    string) every later [update_session_feedback] raises [TypeError], while
    heartbeats and saves do nothing; if it is false-like ([null], an empty
    list) feedback updates and heartbeats silently do nothing. *)
Theorem restore_session_unchecked session_id w :
  (store w !! stem session_id = None \/ store w !! stem session_id = Some FBroken ->
   restore_session py_str session_id w = (PNone, w)) /\
  (forall doc feedback images now,
     store w !! stem session_id = Some (FJson doc) ->
     (forall d, doc <> PDict d) ->
     let w' := (restore_session py_str session_id w).2 in
     (restore_session py_str session_id w).1 = doc /\
     session w' = doc /\
     _send_heartbeat py_str now w' = w' /\
     save w' = w' /\
     update_session_feedback py_str feedback images w' =
       (if truthy doc then Err TypeError else Ok (), w')).
Proof.
  unfold restore_session. split.
  - by intros [-> | ->].
  - intros doc feedback images now -> Hdoc. cbn [json_load fst snd].
    unfold _send_heartbeat, _save_session_state, update_session_feedback.
    rewrite set_session_session.
    destruct doc as [ | b | z | s | l | l | d | b ];
      try (by destruct (Hdoc d)); cbn [py_setitem py_getitem res_bind];
      split_and!; try done; by case_match.
Qed.

(** X4. Restoring a session and saving it again writes the record read into
    the file named by the [session_id] inside the record. When that is the
    file it was read from, the directory is exactly as before; when the record
    carries another identifier, the file read is left as it is and the record
    is copied under the other name. *)
Theorem restore_save_roundtrip requested w d session_id :
  store w !! stem requested = Some (FJson (PDict d)) ->
  dict_get "session_id" d = Some session_id ->
  (stem session_id ∉ unwritable w) ->
  json_native (PDict d) = true ->
  store (save (restore_session py_str requested w).2) =
    <[stem session_id := FJson (PDict d)]> (store w) /\
  (stem session_id = stem requested ->
   store (save (restore_session py_str requested w).2) = store w).
Proof.
  intros Hfile Hid Hw Hn. unfold restore_session. rewrite Hfile. cbn [json_load snd].
  assert (store (save (set_session (PDict d) w)) =
          <[stem session_id := FJson (PDict d)]> (store w)) as Hst.
  { by rewrite (save_written py_str (set_session (PDict d) w) d session_id (PDict d)
                  eq_refl Hid Hw (to_json_native _ Hn)). }
  split; [exact Hst|].
  intros Hsame. rewrite Hst, Hsame. by apply insert_id.
Qed.

End Restore.

(** ** Listing and sweeping together *)

Lemma get_active_sessions_stored clock w doc :
  doc ∈ get_active_sessions clock w ->
  exists i k hb,
    store w !! k = Some (FJson doc) /\
    last_activity (FJson doc) = Ok (doc, hb) /\
    clock i - hb < 86400.
Proof.
  intros Hin. unfold get_active_sessions in Hin.
  apply scan_sessions_sound in Hin as [Hin|(j & k & hb & Hj & Hl & Hc)];
    [by apply elem_of_nil in Hin|].
  exists j, k, hb. split_and!; try done.
  apply elem_of_map_to_list, list_elem_of_lookup. eauto.
Qed.

(** X23. A sweep with an age limit of 24 hours or more, made at a time not
    after the clock readings of a listing, removes none of the sessions that
    the listing returns. A record whose heartbeat is exactly 86400 seconds old
    is in between: it is not listed as active and a sweep with the limit of 24
    hours does not remove it. *)
Theorem cleanup_keeps_active clock current_time max_age_hours w :
  (forall i, current_time <= clock i) ->
  24 <= max_age_hours ->
  (forall doc,
     doc ∈ get_active_sessions clock w ->
     exists k,
       store (cleanup_old_sessions current_time max_age_hours w) !! k =
       Some (FJson doc)) /\
  (forall k doc hb,
     store w !! k = Some (FJson doc) ->
     last_activity (FJson doc) = Ok (doc, hb) ->
     (forall i, clock i - hb = 86400) ->
     (doc ∉ get_active_sessions clock w) /\
     store (cleanup_old_sessions (hb + 86400) 24 w) !! k = Some (FJson doc)).
Proof.
  intros Hclock Hage. split.
  - intros doc Hin.
    destruct (get_active_sessions_stored clock w doc Hin) as (i & k & hb & Hk & Hl & Hc).
    exists k. rewrite cleanup_store_lookup, Hk. unfold expired. rewrite Hl.
    rewrite bool_decide_eq_false_2; [done|]. specialize (Hclock i). lia.
  - intros k doc hb Hk Hl Hexact. split.
    + intros Hin.
      destruct (get_active_sessions_stored clock w doc Hin) as (i & k' & hb' & _ & Hl' & Hc).
      rewrite Hl in Hl'. injection Hl' as <-. specialize (Hexact i). lia.
    + rewrite cleanup_store_lookup, Hk. unfold expired. rewrite Hl.
      rewrite bool_decide_eq_false_2; [done|]. lia.
Qed.

(** ** The decorator with the probe of the source, and without persistent mode *)

Lemma handle_connection_loss_source m :
  is_persistent_mode m = true ->
  0 < max_reconnect_attempts m ->
  handle_connection_loss _test_connection m =
    (true, [Sleep (reconnect_delay m); Probe]).
Proof.
  intros Hp Hmax. unfold handle_connection_loss. rewrite Hp. cbn [negb].
  destruct (Z.to_nat (max_reconnect_attempts m)) as [|n] eqn:E; [lia|done].
Qed.

(** X6. With [_test_connection] as the source has it, in persistent mode and
    with at least one attempt allowed, every error whose text names a
    connection or a timeout is followed by one sleep of [reconnect_delay], one
    probe and one retry, and the outcome of the retry is the outcome of the
    wrapper: the error of the first call is never the one raised. *)
Theorem with_persistent_connection_always_retries func w e w2 :
  func (ensure_heartbeat w) = (Raise e, w2) ->
  is_connection_issue e = true ->
  is_persistent_mode (mgr w2) = true ->
  0 < max_reconnect_attempts (mgr w2) ->
  with_persistent_connection _test_connection func w =
    (func w2,
     [CallFunc; HandleLoss; Sleep (reconnect_delay (mgr w2)); Probe; CallFunc]).
Proof.
  intros Hf Hc Hp Hmax. unfold with_persistent_connection.
  rewrite Hf, Hc, (handle_connection_loss_source _ Hp Hmax).
  by destruct (func w2).
Qed.

(** X7. While persistent mode is off the decorator is transparent: it starts
    no heartbeat, calls the function once, makes no probe and sleeps never,
    and returns or raises what that single call returned or raised. *)
Theorem with_persistent_connection_transparent probe func w r w2 :
  is_persistent_mode (mgr w) = false ->
  func w = (r, w2) ->
  is_persistent_mode (mgr w2) = false ->
  ensure_heartbeat w = w /\
  (with_persistent_connection probe func w).1 = (r, w2) /\
  count CallFunc (with_persistent_connection probe func w).2 = 1%nat /\
  count Probe (with_persistent_connection probe func w).2 = 0%nat /\
  total_sleep (with_persistent_connection probe func w).2 = 0.
Proof.
  intros Hp Hf Hp2.
  assert (ensure_heartbeat w = w) as Hw by (unfold ensure_heartbeat; by rewrite Hp).
  split; [exact Hw|].
  unfold with_persistent_connection, handle_connection_loss. rewrite Hw, Hf, Hp2.
  cbn [negb]. destruct r as [v|e|e]; [done| |done].
  by destruct (is_connection_issue e).
Qed.

(** ** The life of a session record *)

Lemma dict_get_set k k' v d :
  dict_get k (dict_set k' v d) = if String.eqb k k' then Some v else dict_get k d.
Proof.
  destruct (String.eqb_spec k k') as [->|Hne];
    [apply dict_get_set_eq | by apply dict_get_set_ne].
Qed.

Lemma json_native_dict_set k v d :
  json_native (PDict d) = true -> json_native v = true ->
  json_native (PDict (dict_set k v d)) = true.
Proof.
  simpl. intros Hd Hv. induction d as [|[k0 v0] d IH]; simpl in *.
  - by rewrite Hv.
  - apply andb_prop in Hd as [H0 Hd]. destruct (String.eqb k k0); simpl.
    + by rewrite Hv, Hd.
    + by rewrite H0, IH.
Qed.


Lemma getitem_heartbeat now d k :
  mutable_key k = false ->
  py_getitem (PDict (dict_set "last_heartbeat" (PNum now) d)) k = py_getitem (PDict d) k.
Proof.
  intros Hk. unfold py_getitem. rewrite dict_get_set.
  destruct (String.eqb_spec k "last_heartbeat") as [->|]; [done|done].
Qed.

Lemma getitem_with_feedback feedback images d k :
  mutable_key k = false ->
  py_getitem (with_feedback feedback images d) k = py_getitem (PDict d) k.
Proof.
  intros Hk. unfold py_getitem, with_feedback. rewrite !dict_get_set.
  destruct (String.eqb_spec k "status") as [->|]; [done|].
  destruct (String.eqb_spec k "images") as [->|]; [done|].
  destruct (String.eqb_spec k "feedback_result") as [->|]; done.
Qed.

Section Lifecycle.

Variable py_str : pyval -> string.

Local Abbreviation save := (_save_session_state py_str).
Local Abbreviation stem := (session_file py_str).

(** What an operation that keeps the session can do to it: nothing, a
    heartbeat, or a feedback update. *)
Lemma perform_session_shape op w :
  keeps_session op = true ->
  session (perform py_str op w) = session w \/
  (exists d now,
     session w = PDict d /\
     session (perform py_str op w) = PDict (dict_set "last_heartbeat" (PNum now) d)) \/
  (exists d feedback images,
     session w = PDict d /\
     session (perform py_str op w) = with_feedback (PStr feedback) images d).
Proof.
  intros Hk.
  assert (forall now,
    session (_send_heartbeat py_str now w) = session w \/
    exists d now',
      session w = PDict d /\
      session (_send_heartbeat py_str now w) =
        PDict (dict_set "last_heartbeat" (PNum now') d)) as Hbeat.
  { intros now. destruct (send_heartbeat_session py_str now w) as [?|(d & ? & _ & ?)];
      [by left | right; eauto]. }
  destruct op; try discriminate Hk; cbn [perform].
  - by left.
  - unfold update_session_feedback.
    destruct (truthy (session w)) eqn:Ht; [|by left].
    destruct (session w) as [ | | | | | | d | ] eqn:Hs; try by left.
    cbn [py_setitem res_bind snd]. right. right. exists d, feedback, images.
    split; [done|]. by rewrite save_session.
  - destruct (Hbeat now) as [?|?]; [by left | right; by left].
  - left. by rewrite save_session.
  - by left.
  - left. unfold start_heartbeat. by case_match.
  - destruct (heartbeat_loop_session py_str i now w) as [->| ->]; [by left|].
    destruct (Hbeat now) as [?|?]; [by left | right; by left].
  - left. by rewrite stop_session.
Qed.

(** X9. Whatever sequence of heartbeat ticks, feedback updates, saves, sweeps,
    starts and stops is run on the current session, every field other than
    [last_heartbeat], [feedback_result], [images] and [status] reads as
    before: [session_id], [project_directory], [summary] and [created_at] are
    never reassigned, and an absent key stays absent. *)
Theorem session_fields_kept ops w k :
  forallb keeps_session ops = true ->
  mutable_key k = false ->
  py_getitem (session (run py_str ops w)) k = py_getitem (session w) k.
Proof.
  revert w. induction ops as [|op ops IH]; intros w Hops Hk; [done|].
  cbn [forallb] in Hops. apply andb_prop in Hops as [Hop Hops].
  cbn [run foldl]. fold (run py_str ops (perform py_str op w)).
  rewrite IH by done.
  destruct (perform_session_shape op w Hop)
    as [->|[(d & now & -> & ->)|(d & fb & imgs & -> & ->)]];
    [done | by apply getitem_heartbeat | by apply getitem_with_feedback].
Qed.

(** X10. A session whose [status] is ["completed"] stays completed under
    every such sequence: nothing sets [status] back. *)
Theorem completed_stays_completed ops w :
  forallb keeps_session ops = true ->
  is_completed (session w) = true ->
  is_completed (session (run py_str ops w)) = true.
Proof.
  revert w. induction ops as [|op ops IH]; intros w Hops Hc; [done|].
  cbn [forallb] in Hops. apply andb_prop in Hops as [Hop Hops].
  cbn [run foldl]. fold (run py_str ops (perform py_str op w)).
  apply IH; [done|].
  destruct (perform_session_shape op w Hop)
    as [->|[(d & now & Hs & ->)|(d & fb & imgs & Hs & ->)]]; [done| |].
  - rewrite Hs in Hc. unfold is_completed in *.
    by rewrite dict_get_set_ne by done.
  - unfold is_completed, with_feedback. by rewrite dict_get_set_eq.
Qed.

(** X11. A second feedback update overwrites the first: after two updates in
    a row every field of the current record reads as if only the second had
    been made, and [feedback_result] is the second feedback. *)
Theorem update_session_feedback_overwrites w d f1 i1 f2 i2 :
  session w = PDict d -> d <> [] ->
  let w1 := (update_session_feedback py_str f1 i1 w).2 in
  let r := update_session_feedback py_str f2 i2 w1 in
  r.1 = Ok () /\
  (forall k, py_getitem (session r.2) k = py_getitem (with_feedback f2 i2 d) k) /\
  py_getitem (session r.2) "feedback_result" = Ok f2 /\
  py_getitem (session r.2) "images" = Ok i2.
Proof.
  intros Hs Hd w1 r. subst r w1.
  rewrite (update_session_feedback_record py_str f1 i1 w d Hs Hd). cbn [snd].
  assert (session (save (set_session (with_feedback f1 i1 d) w)) =
          with_feedback f1 i1 d) as Hs1 by (by rewrite save_session).
  unfold with_feedback in Hs1 at 2.
  rewrite (update_session_feedback_record py_str f2 i2 _ _ Hs1)
    by apply dict_set_nonempty.
  cbn [fst snd]. rewrite save_session, set_session_session.
  assert (forall k,
    py_getitem
      (with_feedback f2 i2
         (dict_set "status" (PStr "completed")
            (dict_set "images" i1 (dict_set "feedback_result" f1 d)))) k =
    py_getitem (with_feedback f2 i2 d) k) as Hk.
  { intros k. unfold with_feedback, py_getitem. rewrite !dict_get_set.
    destruct (String.eqb k "status"); [done|].
    destruct (String.eqb k "images"); [done|].
    by destruct (String.eqb k "feedback_result"). }
  split_and!; [done | exact Hk | |].
  - rewrite Hk. unfold with_feedback, py_getitem. by rewrite !dict_get_set.
  - rewrite Hk. unfold with_feedback, py_getitem. by rewrite !dict_get_set.
Qed.

Lemma send_heartbeat_mgr_running now w :
  is_running (mgr (_send_heartbeat py_str now w)) = is_running (mgr w).
Proof.
  unfold _send_heartbeat. destruct (truthy (session w)); [|done].
  destruct (py_setitem _ _ _); [|done]. by rewrite save_mgr.
Qed.

Lemma send_heartbeat_tasks now w :
  tasks (_send_heartbeat py_str now w) = tasks w.
Proof.
  unfold _send_heartbeat. destruct (truthy (session w)); [|done].
  destruct (py_setitem _ _ _); [|done]. by rewrite save_tasks.
Qed.

(** X8. When the event loop resumes the heartbeat task from its sleep, the
    manager running and the task not cancelled, the current record gets the
    clock reading as [last_heartbeat]; if the write succeeds the file of the
    session holds the record with that same reading. The task goes back to
    sleep, ready for the next tick. *)
Theorem heartbeat_loop_tick i now w d session_id doc :
  tasks w !! i = Some (mkTask TaskSleeping false) ->
  is_running (mgr w) = true ->
  session w = PDict d ->
  dict_get "session_id" d = Some session_id ->
  (stem session_id ∉ unwritable w) ->
  to_json (PDict (dict_set "last_heartbeat" (PNum now) d)) = Some doc ->
  let w' := heartbeat_loop py_str i now w in
  last_heartbeat_of (session w') = Some now /\
  store w' !! stem session_id = Some (FJson doc) /\
  last_heartbeat_of doc = Some now /\
  tasks w' !! i = Some (mkTask TaskSleeping false) /\
  is_running (mgr w') = true.
Proof.
  intros Ht Hr Hs Hid Hw Hj w'.
  assert (d <> []) as Hd by (intros ->; discriminate Hid).
  assert (w' = _send_heartbeat py_str now w) as ->.
  { subst w'. unfold heartbeat_loop. rewrite Ht. cbn [task_st cancel_requested].
    rewrite Hr. cbn zeta. by rewrite send_heartbeat_mgr_running, Hr. }
  rewrite send_heartbeat_tasks, send_heartbeat_mgr_running.
  rewrite (send_heartbeat_record py_str now w d Hs Hd).
  rewrite save_session, set_session_session.
  split_and!; try done.
  - apply last_heartbeat_set.
  - rewrite (save_written py_str _ _ session_id doc (set_session_session _ w));
      [apply lookup_insert_eq | | done | done].
    by rewrite dict_get_set_ne.
  - apply to_json_dict in Hj as (d' & -> & Hd').
    pose proof (dict_get_to_json "last_heartbeat" _ _ Hd') as Hget.
    rewrite dict_get_set_eq in Hget. destruct Hget as (v' & Hv' & Hg).
    simpl in Hv'. injection Hv' as <-. unfold last_heartbeat_of. by rewrite Hg.
Qed.


End Lifecycle.

(** ** The configuration manager *)

Lemma split_dot_nonempty key : ConfigManager.split_dot key <> [].
Proof.
  destruct key as [|ch rest]; simpl; [done|].
  destruct (Ascii.eqb ch "."); [done|]. by destruct (ConfigManager.split_dot rest).
Qed.

Lemma lookup_set_path keys value : forall d,
  keys <> [] ->
  ConfigManager.lookup_path keys (PDict (ConfigManager.set_path keys value d)) = Some value.
Proof.
  induction keys as [|k rest IH]; intros d Hne; [done|].
  destruct rest as [|k2 rest].
  - cbn [ConfigManager.set_path ConfigManager.lookup_path].
    by rewrite dict_get_set_eq.
  - change (ConfigManager.set_path (k :: k2 :: rest) value d)
      with (dict_set k
              (PDict (ConfigManager.set_path (k2 :: rest) value
                        match dict_get k d with Some (PDict d') => d' | _ => [] end)) d).
    cbn [ConfigManager.lookup_path]. rewrite dict_get_set_eq. by apply IH.
Qed.

Lemma lookup_path_empty keys :
  keys <> [] -> ConfigManager.lookup_path keys (PDict []) = None.
Proof. by destruct keys. Qed.

Lemma json_native_dict_get k d v :
  json_native (PDict d) = true -> dict_get k d = Some v -> json_native v = true.
Proof.
  simpl. induction d as [|[k0 v0] d IH]; simpl; [done|].
  intros Hd. apply andb_prop in Hd as [H0 Hd].
  destruct (String.eqb k k0); [by intros [= <-] | by apply IH].
Qed.

Lemma json_native_set_path keys value : forall d,
  json_native (PDict d) = true -> json_native value = true ->
  json_native (PDict (ConfigManager.set_path keys value d)) = true.
Proof.
  induction keys as [|k rest IH]; intros d Hd Hv; [done|].
  destruct rest as [|k2 rest].
  - by apply json_native_dict_set.
  - change (ConfigManager.set_path (k :: k2 :: rest) value d)
      with (dict_set k
              (PDict (ConfigManager.set_path (k2 :: rest) value
                        match dict_get k d with Some (PDict d') => d' | _ => [] end)) d).
    apply json_native_dict_set; [done|]. apply IH; [|done].
    destruct (dict_get k d) as [[ | | | | | | d' | ]|] eqn:E; try done.
    by apply (json_native_dict_get k d).
Qed.

Lemma dict_update_get_other updates : forall d k,
  k ∉ updates.*1 -> dict_get k (dict_update updates d) = dict_get k d.
Proof.
  induction updates as [|[k0 v0] updates IH]; intros d k Hk; [done|].
  cbn [dict_update foldl fst snd]. fold (dict_update updates (dict_set k0 v0 d)).
  cbn [fmap list_fmap fst] in Hk. apply not_elem_of_cons in Hk as [Hne Hk].
  rewrite IH by done. by apply dict_get_set_ne.
Qed.

Lemma json_native_dict_update updates : forall d,
  json_native (PDict d) = true ->
  Forall (fun kv => json_native kv.2 = true) updates ->
  json_native (PDict (dict_update updates d)) = true.
Proof.
  induction updates as [|[k0 v0] updates IH]; intros d Hd Hu; [done|].
  apply Forall_cons in Hu as [H0 Hu].
  cbn [dict_update foldl fst snd]. fold (dict_update updates (dict_set k0 v0 d)).
  apply IH; [|done]. by apply json_native_dict_set.
Qed.

Lemma apply_updates_dicts updates : forall current cache,
  ConfigManager.apply_updates updates (PDict current) (PDict cache) =
    (Ok (PDict (dict_update updates current)), PDict (dict_update updates cache)).
Proof.
  induction updates as [|[k v] updates IH]; intros current cache; [done|].
  cbn [ConfigManager.apply_updates py_setitem]. by rewrite IH.
Qed.

(** X13. On a cache that is a dictionary, [set] followed by [get] of the same
    key returns the value set, whatever the default, and the other keys read
    as before. If the directory is writable and the values are JSON-native the
    file then holds the whole cache, and a manager started afresh on that
    file returns the value too. *)
Theorem config_set_get key value dflt c d :
  ConfigManager._config_cache c = PDict d ->
  let r := ConfigManager.set key value c in
  r.1 = Ok () /\
  ConfigManager.get key dflt r.2 = Ok value /\
  (forall k, k <> key -> ConfigManager.get k dflt r.2 = ConfigManager.get k dflt c) /\
  (ConfigManager.read_only c = false ->
   json_native (PDict d) = true -> json_native value = true ->
   ConfigManager.disk r.2 = Some (FJson (ConfigManager._config_cache r.2)) /\
   ConfigManager.get key dflt
     (ConfigManager.init (ConfigManager.disk r.2) (ConfigManager.read_only r.2))
     = Ok value).
Proof.
  intros Hc r. subst r. unfold ConfigManager.set. rewrite Hc. cbn [py_setitem fst snd].
  assert (ConfigManager._config_cache
            (ConfigManager._save_config
               (ConfigManager.with_cache (PDict (dict_set key value d)) c)) =
          PDict (dict_set key value d)) as Hcache.
  { unfold ConfigManager._save_config, ConfigManager.write_config.
    repeat case_match; reflexivity. }
  split_and!; [done | | |].
  - unfold ConfigManager.get. rewrite Hcache. cbn [py_get].
    by rewrite dict_get_set_eq.
  - intros k Hk. unfold ConfigManager.get. rewrite Hcache, Hc. cbn [py_get].
    by rewrite dict_get_set_ne.
  - intros Hro Hd Hv. rewrite Hcache.
    assert (ConfigManager.disk
              (ConfigManager._save_config
                 (ConfigManager.with_cache (PDict (dict_set key value d)) c)) =
            Some (FJson (PDict (dict_set key value d)))) as Hdisk.
    { unfold ConfigManager._save_config, ConfigManager.write_config.
      cbn [ConfigManager.read_only ConfigManager.with_cache ConfigManager._config_cache].
      rewrite Hro.
      by rewrite (to_json_native _ (json_native_dict_set key value d Hd Hv)). }
    split; [exact Hdisk|]. rewrite Hdisk.
    unfold ConfigManager.init, ConfigManager._load_config, ConfigManager.get.
    cbn. by rewrite dict_get_set_eq.
Qed.

Lemma update_partial_config_dicts updates c dc dd :
  ConfigManager._config_cache c = PDict dc ->
  (ConfigManager.disk c = None /\ dd = [] \/
   ConfigManager.disk c = Some (FJson (PDict dd))) ->
  ConfigManager.update_partial_config updates c =
    (ConfigManager.write_config (PDict (dict_update updates dd))
       (ConfigManager.with_cache (PDict (dict_update updates dc)) c)).2.
Proof.
  intros Hc Hd. unfold ConfigManager.update_partial_config. rewrite Hc.
  destruct Hd as [[-> ->]| ->]; cbn [json_load]; by rewrite apply_updates_dicts.
Qed.

Lemma write_config_cache obj c :
  ConfigManager._config_cache (ConfigManager.write_config obj c).2 =
  ConfigManager._config_cache c.
Proof. unfold ConfigManager.write_config. repeat case_match; reflexivity. Qed.

(** X14. While the configuration file holds text that does not parse,
    [update_partial_config] changes nothing, neither the file nor the cache,
    and raises nothing: every setter built on it ([set_language],
    [set_layout_mode], [set_window_geometry], ...) is silently without
    effect, however often it is called. A call of [set] repairs the file, if
    the directory is writable and the cache JSON-native: it writes the whole
    cache, and the partial updates made after it reach the file. *)
Theorem update_partial_config_broken_file c d :
  ConfigManager.disk c = Some FBroken ->
  ConfigManager._config_cache c = PDict d ->
  (forall batches,
     foldl (fun c updates => ConfigManager.update_partial_config updates c) c batches
     = c) /\
  (forall language,
     ConfigManager.get_language (ConfigManager.set_language language c)
     = ConfigManager.get_language c) /\
  (forall key value updates,
     ConfigManager.read_only c = false ->
     json_native (PDict d) = true -> json_native value = true ->
     Forall (fun kv => json_native kv.2 = true) updates ->
     ConfigManager.disk
       (ConfigManager.update_partial_config updates (ConfigManager.set key value c).2)
     = Some (FJson (PDict (dict_update updates (dict_set key value d))))).
Proof.
  intros Hd Hc.
  assert (forall updates, ConfigManager.update_partial_config updates c = c) as Hnone.
  { intros updates. unfold ConfigManager.update_partial_config. by rewrite Hd. }
  split_and!.
  - intros batches. induction batches as [|u batches IH]; [done|].
    cbn [foldl]. by rewrite Hnone.
  - intros language. unfold ConfigManager.set_language. by rewrite Hnone.
  - intros key value updates Hro Hn Hv Hu.
    assert (json_native (PDict (dict_set key value d)) = true) as Hn'
      by (by apply json_native_dict_set).
    assert ((ConfigManager.set key value c).2 =
            ConfigManager.mk (PDict (dict_set key value d))
              (Some (FJson (PDict (dict_set key value d)))) false) as ->.
    { unfold ConfigManager.set. rewrite Hc. cbn [py_setitem snd].
      unfold ConfigManager._save_config, ConfigManager.write_config.
      cbn [ConfigManager.read_only ConfigManager.with_cache ConfigManager._config_cache].
      rewrite Hro, (to_json_native _ Hn'). cbn [snd]. unfold ConfigManager.with_disk.
      cbn. by rewrite Hro. }
    rewrite (update_partial_config_dicts updates _ (dict_set key value d)
               (dict_set key value d)); [|done|by right].
    unfold ConfigManager.write_config. cbn [ConfigManager.read_only ConfigManager.with_cache].
    by rewrite (to_json_native _ (json_native_dict_update updates _ Hn' Hu)).
Qed.

(** X15. When the configuration file is absent or holds a dictionary, and the
    cache is a dictionary, [update_partial_config] assigns the updates in the
    cache and writes to the file the dictionary read from the file with the
    updates assigned: a key outside the updates keeps the value the file had
    for it, whatever the cache holds for that key. On a read-only directory
    the cache is updated and the file is left as it is. *)
Theorem update_partial_config_merges updates c dc dd :
  ConfigManager._config_cache c = PDict dc ->
  (ConfigManager.disk c = None /\ dd = [] \/
   ConfigManager.disk c = Some (FJson (PDict dd))) ->
  let c' := ConfigManager.update_partial_config updates c in
  ConfigManager._config_cache c' = PDict (dict_update updates dc) /\
  (ConfigManager.read_only c = false ->
   json_native (PDict dd) = true ->
   Forall (fun kv => json_native kv.2 = true) updates ->
   ConfigManager.disk c' = Some (FJson (PDict (dict_update updates dd))) /\
   forall k, k ∉ updates.*1 ->
             dict_get k (dict_update updates dd) = dict_get k dd) /\
  (ConfigManager.read_only c = true -> ConfigManager.disk c' = ConfigManager.disk c).
Proof.
  intros Hc Hd c'. subst c'. rewrite (update_partial_config_dicts updates c dc dd Hc Hd).
  split_and!.
  - by rewrite write_config_cache.
  - intros Hro Hn Hu. split; [|intros k Hk; by apply dict_update_get_other].
    unfold ConfigManager.write_config.
    cbn [ConfigManager.read_only ConfigManager.with_cache]. rewrite Hro.
    by rewrite (to_json_native _ (json_native_dict_update updates dd Hn Hu)).
  - intros Hro. unfold ConfigManager.write_config.
    cbn [ConfigManager.read_only ConfigManager.with_cache]. by rewrite Hro.
Qed.

(** X16. On a cache that is a dictionary, [set_setting] with a dotted key
    followed by [get_setting] with the same key returns the value set,
    whatever was stored along the path before. If the directory is writable
    and the values are JSON-native, a manager started afresh on the file
    returns the value too. On a cache that is not a dictionary [set_setting]
    raises [TypeError] and changes nothing. *)
Theorem set_setting_get_setting key value dflt c :
  (forall d,
     ConfigManager._config_cache c = PDict d ->
     let r := ConfigManager.set_setting key value c in
     r.1 = Ok () /\
     ConfigManager.get_setting key dflt r.2 = value /\
     (ConfigManager.read_only c = false ->
      json_native (PDict d) = true -> json_native value = true ->
      ConfigManager.get_setting key dflt
        (ConfigManager.init (ConfigManager.disk r.2) (ConfigManager.read_only r.2))
        = value)) /\
  ((forall d, ConfigManager._config_cache c <> PDict d) ->
   ConfigManager.set_setting key value c = (Err TypeError, c)).
Proof.
  split.
  - intros d Hc r. subst r. unfold ConfigManager.set_setting. rewrite Hc.
    cbn [fst snd].
    set (d' := ConfigManager.set_path (ConfigManager.split_dot key) value d).
    assert (ConfigManager.lookup_path (ConfigManager.split_dot key) (PDict d')
            = Some value) as Hlook
      by (apply lookup_set_path, split_dot_nonempty).
    split_and!; [done | |].
    + unfold ConfigManager.get_setting, ConfigManager._save_config.
      rewrite write_config_cache. cbn [ConfigManager._config_cache ConfigManager.with_cache].
      by rewrite Hlook.
    + intros Hro Hd Hv.
      unfold ConfigManager._save_config, ConfigManager.write_config.
      cbn [ConfigManager.read_only ConfigManager.with_cache ConfigManager._config_cache].
      rewrite Hro.
      rewrite (to_json_native (PDict d')) by (by apply json_native_set_path).
      unfold ConfigManager.get_setting, ConfigManager.init, ConfigManager._load_config.
      cbn. by rewrite Hlook.
  - intros Hc. unfold ConfigManager.set_setting.
    destruct (ConfigManager._config_cache c) as [ | | | | | | d | ] eqn:E; try done.
    by destruct (Hc d).
Qed.

(** X17. After [reset_settings] every [get] and every [get_setting] returns
    its default. If the file is absent or the directory writable the call
    returns normally, the file is gone and a manager started afresh returns
    the defaults as well; on a read-only directory with a file present the
    call raises [OSError] after the cache has been emptied, and the file is
    still there. *)
Theorem reset_settings_defaults c :
  let r := ConfigManager.reset_settings c in
  (forall key dflt,
     ConfigManager.get key dflt r.2 = Ok dflt /\
     ConfigManager.get_setting key dflt r.2 = dflt) /\
  (ConfigManager.read_only c = false \/ ConfigManager.disk c = None ->
   r.1 = Ok () /\ ConfigManager.disk r.2 = None /\
   forall key dflt,
     ConfigManager.get key dflt
       (ConfigManager.init (ConfigManager.disk r.2) (ConfigManager.read_only r.2))
     = Ok dflt) /\
  (ConfigManager.read_only c = true -> ConfigManager.disk c <> None ->
   r.1 = Err OSError /\ ConfigManager.disk r.2 = ConfigManager.disk c).
Proof.
  intros r. subst r. unfold ConfigManager.reset_settings.
  cbn [ConfigManager.disk ConfigManager.read_only ConfigManager.with_cache].
  split_and!.
  - intros key dflt.
    assert (ConfigManager._config_cache
              (match ConfigManager.disk c with
               | Some _ =>
                   if ConfigManager.read_only c
                   then (Err OSError, ConfigManager.with_cache (PDict []) c)
                   else (Ok (), ConfigManager.with_disk None
                                  (ConfigManager.with_cache (PDict []) c))
               | None => (Ok (), ConfigManager.with_cache (PDict []) c)
               end).2 = PDict []) as Hcache by (repeat case_match; reflexivity).
    unfold ConfigManager.get, ConfigManager.get_setting. rewrite Hcache.
    split; [done|]. by rewrite lookup_path_empty by apply split_dot_nonempty.
  - intros Hok.
    assert ((match ConfigManager.disk c with
             | Some _ =>
                 if ConfigManager.read_only c
                 then (Err OSError, ConfigManager.with_cache (PDict []) c)
                 else (Ok (), ConfigManager.with_disk None
                                (ConfigManager.with_cache (PDict []) c))
             | None => (Ok (), ConfigManager.with_cache (PDict []) c)
             end) =
            (Ok (), ConfigManager.mk (PDict []) None (ConfigManager.read_only c)))
      as ->.
    { destruct c as [cache [f|] ro]; cbn in *; [|done].
      destruct Hok as [->|?]; done. }
    done.
  - intros Hro Hd. destruct c as [cache [f|] ro]; cbn in *; [|done].
    by rewrite Hro.
Qed.

(** X18. When the configuration file is absent or holds a dictionary and the
    cache is a dictionary, the orientation read after [set_layout_orientation]
    is ["horizontal"] if that is what was passed and ["vertical"] for every
    other argument, string or not. *)
Theorem set_layout_orientation_normalises orientation c dc dd :
  ConfigManager._config_cache c = PDict dc ->
  (ConfigManager.disk c = None /\ dd = [] \/
   ConfigManager.disk c = Some (FJson (PDict dd))) ->
  ConfigManager.get_layout_orientation
    (ConfigManager.set_layout_orientation orientation c) =
  Ok (match orientation with
      | PStr s => if String.eqb s "horizontal" then PStr "horizontal"
                  else PStr "vertical"
      | _ => PStr "vertical"
      end).
Proof.
  intros Hc Hd. unfold ConfigManager.set_layout_orientation,
    ConfigManager.get_layout_orientation, ConfigManager.get.
  rewrite (update_partial_config_dicts _ c dc dd Hc Hd), write_config_cache.
  cbn [ConfigManager._config_cache ConfigManager.with_cache dict_update foldl
       fst snd py_get].
  rewrite dict_get_set_eq. cbn [default from_option option_rect id].
  unfold ConfigManager.is_orientation.
  destruct orientation as [ | | | s | | | | ]; try done.
  destruct (String.eqb_spec s "vertical") as [->|Hv]; [done|].
  destruct (String.eqb_spec s "horizontal") as [->|Hh]; done.
Qed.

(** X19. A splitter size saved by [set_splitter_sizes] is found again by
    [get_splitter_sizes], which reads the flat key
    ["splitter_sizes.<name>"]; [get_setting] with that same key does not find
    it, because it reads the key as a path into nested dictionaries, and
    returns its default as long as the cache has no entry ["splitter_sizes"]. *)
Theorem splitter_sizes_flat_key splitter_name sizes dflt c dc dd :
  ConfigManager._config_cache c = PDict dc ->
  (ConfigManager.disk c = None /\ dd = [] \/
   ConfigManager.disk c = Some (FJson (PDict dd))) ->
  dict_get "splitter_sizes" dc = None ->
  let c' := ConfigManager.set_splitter_sizes splitter_name sizes c in
  ConfigManager.get_splitter_sizes splitter_name c' = Ok sizes /\
  ConfigManager.get_setting ("splitter_sizes." ++ splitter_name) dflt c' = dflt.
Proof.
  intros Hc Hd Hnone c'. subst c'.
  unfold ConfigManager.set_splitter_sizes, ConfigManager.get_splitter_sizes,
    ConfigManager.get, ConfigManager.get_setting.
  rewrite (update_partial_config_dicts _ c dc dd Hc Hd), write_config_cache.
  cbn [ConfigManager._config_cache ConfigManager.with_cache dict_update foldl
       fst snd py_get].
  split; [by rewrite dict_get_set_eq|].
  assert (ConfigManager.split_dot ("splitter_sizes." ++ splitter_name) =
          "splitter_sizes"%string :: ConfigManager.split_dot splitter_name) as ->
    by reflexivity.
  cbn [ConfigManager.lookup_path].
  rewrite dict_get_set_ne; [by rewrite Hnone|].
  intros H. apply (f_equal String.length) in H. simpl in H.
  rewrite ?length_append in H. lia.
Qed.

(** ** The cache of the environment detection *)

Lemma save_cache_data o :
  PerformanceOptimizer.cache_data (PerformanceOptimizer._save_cache o) =
  PerformanceOptimizer.cache_data o.
Proof. unfold PerformanceOptimizer._save_cache. repeat case_match; reflexivity. Qed.

Lemma cache_environment_detection_dict is_remote can_gui t o d :
  PerformanceOptimizer.cache_data o = PDict d ->
  PerformanceOptimizer.cache_environment_detection is_remote can_gui t o =
    (Ok (),
     PerformanceOptimizer._save_cache
       (PerformanceOptimizer.with_cache
          (PDict (dict_set "environment_detection"
                    (detection_entry is_remote can_gui t) d)) o)).
Proof.
  intros Hd. unfold PerformanceOptimizer.cache_environment_detection. by rewrite Hd.
Qed.

Lemma get_cached_entry now o d is_remote can_gui t :
  PerformanceOptimizer.cache_data o = PDict d ->
  dict_get "environment_detection" d = Some (detection_entry is_remote can_gui t) ->
  PerformanceOptimizer.get_cached_environment_detection now o =
    Ok (if bool_decide (now - t < 300)
        then PDict [("is_remote"%string, PBool is_remote);
                    ("can_gui"%string, PBool can_gui)]
        else PNone).
Proof.
  intros Hd He. unfold PerformanceOptimizer.get_cached_environment_detection.
  rewrite Hd. cbn [py_get res_bind]. rewrite He.
  cbn. by case_bool_decide.
Qed.

(** X20. After [cache_environment_detection] at time [t], on a cache that is
    a dictionary, [get_cached_environment_detection] returns the two answers
    stored as long as the clock reads less than 300 seconds past [t], and
    [None] from then on. If the cache directory is writable and the cache is
    JSON-native, an optimizer started afresh on the cache file answers the
    same. *)
Theorem environment_detection_cached is_remote can_gui t now o d :
  PerformanceOptimizer.cache_data o = PDict d ->
  let r := PerformanceOptimizer.cache_environment_detection is_remote can_gui t o in
  let answer :=
    Ok (if bool_decide (now - t < 300)
        then PDict [("is_remote"%string, PBool is_remote);
                    ("can_gui"%string, PBool can_gui)]
        else PNone) in
  r.1 = Ok () /\
  PerformanceOptimizer.get_cached_environment_detection now r.2 = answer /\
  (PerformanceOptimizer.read_only o = false ->
   json_native (PDict d) = true ->
   PerformanceOptimizer.get_cached_environment_detection now
     (PerformanceOptimizer.init (PerformanceOptimizer.disk r.2)
        (PerformanceOptimizer.read_only r.2)) = answer).
Proof.
  intros Hd r answer. subst r answer.
  rewrite (cache_environment_detection_dict _ _ _ _ _ Hd). cbn [fst snd].
  split_and!; [done | |].
  - apply (get_cached_entry now _ (dict_set "environment_detection"
                                      (detection_entry is_remote can_gui t) d)).
    + by rewrite save_cache_data.
    + apply dict_get_set_eq.
  - intros Hro Hn.
    unfold PerformanceOptimizer._save_cache.
    cbn [PerformanceOptimizer.read_only PerformanceOptimizer.with_cache
         PerformanceOptimizer.cache_data].
    rewrite Hro.
    rewrite (to_json_native (PDict (dict_set "environment_detection"
                                      (detection_entry is_remote can_gui t) d)))
      by (by apply json_native_dict_set).
    apply (get_cached_entry now _ (dict_set "environment_detection"
                                      (detection_entry is_remote can_gui t) d));
      [reflexivity | apply dict_get_set_eq].
Qed.

(** X21. [get_optimal_interface_choice] answers ["gui"] only when the web
    interface is not forced, the environment is not remote and a GUI can be
    used. Within 300 seconds of a cached detection it answers from the cache,
    without looking at what the detection would say now and without changing
    anything; with no cached entry, or one that is 300 seconds old or more, it
    answers from the detection and caches it with the reading of the clock. *)
Theorem interface_choice_cached force_web is_remote can_gui t
    now_check now_store detected_remote detected_gui o d :
  PerformanceOptimizer.cache_data o = PDict d ->
  let o1 := (PerformanceOptimizer.cache_environment_detection is_remote can_gui t o).2 in
  (forall f r g,
     PerformanceOptimizer.interface_for f r g = "gui"%string <->
     f = false /\ r = false /\ g = true) /\
  (now_check - t < 300 ->
   PerformanceOptimizer.get_optimal_interface_choice force_web now_check now_store
     detected_remote detected_gui o1 =
   (Ok (PerformanceOptimizer.interface_for force_web is_remote can_gui), o1)) /\
  (300 <= now_check - t ->
   PerformanceOptimizer.get_optimal_interface_choice force_web now_check now_store
     detected_remote detected_gui o1 =
   (Ok (PerformanceOptimizer.interface_for force_web detected_remote detected_gui),
    (PerformanceOptimizer.cache_environment_detection detected_remote detected_gui
       now_store o1).2)) /\
  (dict_get "environment_detection" d = None ->
   PerformanceOptimizer.get_optimal_interface_choice force_web now_check now_store
     detected_remote detected_gui o =
   (Ok (PerformanceOptimizer.interface_for force_web detected_remote detected_gui),
    (PerformanceOptimizer.cache_environment_detection detected_remote detected_gui
       now_store o).2)).
Proof.
  intros Hd o1.
  assert (PerformanceOptimizer.cache_data o1 =
          PDict (dict_set "environment_detection"
                   (detection_entry is_remote can_gui t) d)) as Hd1.
  { subst o1. rewrite (cache_environment_detection_dict _ _ _ _ _ Hd). cbn [snd].
    by rewrite save_cache_data. }
  pose proof (get_cached_entry now_check o1 _ is_remote can_gui t Hd1
                (dict_get_set_eq _ _ _)) as Hget.
  split_and!.
  - intros f r g. unfold PerformanceOptimizer.interface_for.
    destruct f, r, g; cbn; split; try done; by intros (? & ? & ?).
  - intros Hfresh. unfold PerformanceOptimizer.get_optimal_interface_choice.
    rewrite Hget, bool_decide_eq_true_2 by done. cbn.
    by destruct is_remote, can_gui.
  - intros Hold. unfold PerformanceOptimizer.get_optimal_interface_choice.
    rewrite Hget, bool_decide_eq_false_2 by lia. cbn [truthy].
    rewrite (cache_environment_detection_dict _ _ _ _ _ Hd1). done.
  - intros Hnone. unfold PerformanceOptimizer.get_optimal_interface_choice,
      PerformanceOptimizer.get_cached_environment_detection.
    rewrite Hd. cbn [py_get res_bind]. rewrite Hnone. cbn [default from_option option_rect id truthy].
    rewrite (cache_environment_detection_dict _ _ _ _ _ Hd). done.
Qed.

(** ** The resilience test *)

Section ResilienceTestProofs.

Variable py_str : pyval -> string.

Local Abbreviation save := (_save_session_state py_str).








End ResilienceTestProofs.

(** * The properties on the concrete states *)

(** ** What the code does where the specification says otherwise *)






(** C9: a feedback update at a time when the clock reads 200 leaves
    [last_heartbeat] at 100; and a heartbeat tick taken after the wall clock
    was set back to 50 lowers it from 100 to 50. *)
Lemma feedback_update_keeps_last_heartbeat :
  let r := update_session_feedback Example.py_str (PStr "looks good") (PList [])
             Example.w_session in
  last_heartbeat_of (session Example.w_session) = Some 100 /\
  last_heartbeat_of (session r.2) = Some 100 /\
  last_heartbeat_of (session r.2) <> Some (Example.clock_200 0%nat) /\
  last_heartbeat_of (session (_send_heartbeat Example.py_str 50 Example.w_session))
    = Some 50.
Proof. split_and!; vm_compute; done. Qed.

(** ** Two further behaviours of the code *)

(** The [try] of [get_active_sessions] encloses its loop: a file that does not
    parse, listed first, hides the recent session listed after it. The loop of
    [cleanup_old_sessions] guards each file and goes past the same file. *)
Lemma get_active_sessions_stops_at_broken_file :
  (map_to_list (store Example.w_broken)).*1 = ["old"; "s1"]%string /\
  get_active_sessions Example.clock_200 Example.w_broken = [] /\
  get_active_sessions Example.clock_200 Example.w_session = [Example.record] /\
  (map_to_list (store (cleanup_old_sessions 1000000 24 Example.w_broken))).*1
    = ["old"]%string.
Proof. split_and!; vm_compute; reflexivity. Qed.

(** Called while an event loop is running, as from a coroutine or from the
    signal handler of a running server, [stop] raises and saves nothing. *)
Lemma stop_raises_inside_event_loop :
  (stop Example.py_str true Example.w_beating).1 = Err RuntimeError /\
  store (stop Example.py_str true Example.w_beating).2 = store Example.w_beating.
Proof. split_and!; vm_compute; reflexivity. Qed.

(** ** The theorems at work *)


(** Three attempts allowed, a probe that always answers [False]. *)
Lemma handle_connection_loss_bounded_witness :
  is_persistent_mode Example.m_three = true /\
  max_reconnect_attempts Example.m_three = 3 /\
  (forall j, Example.probe_down j <> Ok true) /\
  (handle_connection_loss Example.probe_down Example.m_three).1 = false /\
  count Probe (handle_connection_loss Example.probe_down Example.m_three).2 = 3%nat /\
  3 * reconnect_delay Example.m_three <=
    total_sleep (handle_connection_loss Example.probe_down Example.m_three).2.
Proof.
  assert (forall j, Example.probe_down j <> Ok true) as Hdown by (intros j; discriminate).
  destruct (handle_connection_loss_bounded Example.probe_down Example.m_three)
    as (_ & _ & _ & Hthree).
  destruct (Hthree eq_refl eq_refl Hdown) as (H1 & H2 & H3).
  split_and!; solve [reflexivity | assumption].
Defined.



(** A full life of one session, from an empty directory. *)
Lemma completed_has_feedback_witness :
  records_ok Example.w_idle /\
  records_ok
    (run Example.py_str
       [OpEnable; OpCreate 5 100 101 "/tmp/proj" "test"; OpStart; OpResume 0 0;
        OpResume 0 130; OpFeedback "looks good" (PList []); OpStop false;
        OpRestore (PStr "00000000-0000-4000-8000-000000000005")]
       Example.w_idle).
Proof.
  assert (records_ok Example.w_idle) as Hidle.
  { split; [reflexivity|]. intros k doc H.
    change (store Example.w_idle) with (∅ : gmap string file) in H.
    rewrite lookup_empty in H. discriminate H. }
  split; [exact Hidle|].
  apply (completed_has_feedback Example.py_str), Hidle.
Defined.




(** Ticks at 130 and 160 around a feedback update, then [stop]. *)
Lemma last_heartbeat_monotone_witness :
  last_heartbeat_of (session Example.w_session) = Some 100 /\
  clock_from 100 [OpHeartbeat 130; OpFeedback "looks good" (PList []);
                  OpResume 0 160; OpStop false] /\
  last_heartbeat_of (session (_send_heartbeat Example.py_str 130 Example.w_session))
    = Some 130 /\
  exists z',
    last_heartbeat_of
      (session (run Example.py_str
                  [OpHeartbeat 130; OpFeedback "looks good" (PList []);
                   OpResume 0 160; OpStop false] Example.w_session)) = Some z' /\
    100 <= z'.
Proof.
  assert (clock_from 100 [OpHeartbeat 130; OpFeedback "looks good" (PList []);
                          OpResume 0 160; OpStop false]) as Hclock.
  { cbn. lia. }
  assert (session Example.w_session = Example.record) as Hs by reflexivity.
  unfold Example.record, new_session in Hs.
  destruct (last_heartbeat_monotone Example.py_str Example.w_session _ 100
              Hs eq_refl) as (Htick & _ & Hrun).
  split_and!; [reflexivity | exact Hclock | apply Htick |].
  apply Hrun; [reflexivity | exact Hclock].
Defined.

(** Feedback sent to a fresh manager. *)
Lemma update_session_feedback_no_session_witness :
  session Example.w_idle = PNone /\
  update_session_feedback Example.py_str (PStr "looks good") (PList [])
    Example.w_idle = (Ok (), Example.w_idle).
Proof.
  split; [reflexivity|].
  apply (update_session_feedback_no_session Example.py_str). reflexivity.
Defined.

(** ** Further theorems at work *)

(** The file [s9] holds an array: it is restored, and feedback then raises. *)
Lemma restore_session_unchecked_witness :
  store Sample.w_array !! "s9"%string = Some (FJson (PList [PNum 1])) /\
  update_session_feedback Example.py_str (PStr "looks good") (PList [])
    (restore_session Example.py_str (PStr "s9") Sample.w_array).2 =
  (Err TypeError, (restore_session Example.py_str (PStr "s9") Sample.w_array).2).
Proof.
  assert (store Sample.w_array !! session_file Example.py_str (PStr "s9") =
          Some (FJson (PList [PNum 1]))) as Hf by (vm_compute; reflexivity).
  split; [exact Hf|].
  destruct (restore_session_unchecked Example.py_str (PStr "s9") Sample.w_array)
    as [_ H].
  destruct (H (PList [PNum 1]) (PStr "looks good") (PList []) 0 Hf
              ltac:(discriminate)) as (_ & _ & _ & _ & Hu).
  exact Hu.
Defined.

(** Restoring [s1] and saving it leaves the directory as it was. *)
Lemma restore_save_roundtrip_witness :
  store Example.w_session !! "s1"%string = Some (FJson Example.record) /\
  store (_save_session_state Example.py_str
           (restore_session Example.py_str (PStr "s1") Example.w_session).2) =
  store Example.w_session.
Proof.
  assert (store Example.w_session !! session_file Example.py_str (PStr "s1") =
          Some (FJson (PDict Sample.fields))) as Hf by (vm_compute; reflexivity).
  assert (session_file Example.py_str (PStr "s1") ∉ unwritable Example.w_session)
    as Hw by (vm_compute; discriminate).
  split; [exact Hf|].
  exact (proj2 (restore_save_roundtrip Example.py_str (PStr "s1") Example.w_session
                  Sample.fields (PStr "s1") Hf eq_refl Hw eq_refl) eq_refl).
Defined.


(** In persistent mode the lost connection is always followed by a retry. *)
Lemma with_persistent_connection_always_retries_witness :
  is_connection_issue Example.lost = true /\
  with_persistent_connection _test_connection Example.flaky Example.w_on =
    (Example.flaky
       (restore_session Example.py_str (PStr "s1") (ensure_heartbeat Example.w_on)).2,
     [CallFunc; HandleLoss; Sleep 5; Probe; CallFunc]).
Proof.
  split; [vm_compute; reflexivity|].
  apply (with_persistent_connection_always_retries Example.flaky Example.w_on
           Example.lost);
    [vm_compute; reflexivity | vm_compute; reflexivity | reflexivity | reflexivity].
Defined.

(** Without persistent mode the same function is called once and its error
    is the one raised. *)
Lemma with_persistent_connection_transparent_witness :
  is_persistent_mode (mgr Sample.w_off) = false /\
  (with_persistent_connection _test_connection Example.flaky Sample.w_off).1.1 =
    Raise Example.lost /\
  count CallFunc
    (with_persistent_connection _test_connection Example.flaky Sample.w_off).2 = 1%nat.
Proof.
  split; [reflexivity|].
  destruct (with_persistent_connection_transparent _test_connection Example.flaky
              Sample.w_off (Raise Example.lost)
              (restore_session Example.py_str (PStr "s1") Sample.w_off).2
              eq_refl ltac:(vm_compute; reflexivity) eq_refl)
    as (_ & H1 & H2 & _).
  split; [by rewrite H1 | exact H2].
Defined.

(** A tick at time 130 on the sleeping task of [s1]. *)
Lemma heartbeat_loop_tick_witness :
  tasks Example.w_beating !! 0%nat = Some (mkTask TaskSleeping false) /\
  is_running (mgr Example.w_beating) = true /\
  last_heartbeat_of (session (heartbeat_loop Example.py_str 0 130 Example.w_beating))
    = Some 130 /\
  store (heartbeat_loop Example.py_str 0 130 Example.w_beating) !! "s1"%string =
    Some (FJson (PDict (dict_set "last_heartbeat" (PNum 130) Sample.fields))).
Proof.
  assert (session_file Example.py_str (PStr "s1") ∉ unwritable Example.w_beating)
    as Hw by (vm_compute; discriminate).
  destruct (heartbeat_loop_tick Example.py_str 0 130 Example.w_beating Sample.fields
              (PStr "s1")
              (PDict (dict_set "last_heartbeat" (PNum 130) Sample.fields))
              eq_refl eq_refl eq_refl eq_refl Hw eq_refl)
    as (H1 & H2 & _).
  split_and!; [reflexivity | reflexivity | exact H1 | exact H2].
Defined.

(** The identifier survives ticks, a feedback update and a stop. *)
Lemma session_fields_kept_witness :
  mutable_key "session_id" = false /\
  py_getitem
    (session (run Example.py_str
                [OpHeartbeat 130; OpFeedback "looks good" (PList []);
                 OpResume 0 160; OpStop false] Example.w_session)) "session_id"
  = Ok (PStr "s1").
Proof.
  split; [reflexivity|].
  rewrite (session_fields_kept Example.py_str
             [OpHeartbeat 130; OpFeedback "looks good" (PList []);
              OpResume 0 160; OpStop false] Example.w_session "session_id"
             eq_refl eq_refl).
  reflexivity.
Defined.

(** A completed session after a tick, a save and a stop. *)
Lemma completed_stays_completed_witness :
  is_completed (session Sample.w_done) = true /\
  is_completed
    (session (run Example.py_str [OpHeartbeat 130; OpSave; OpStop false]
                Sample.w_done)) = true.
Proof.
  split; [reflexivity|].
  apply (completed_stays_completed Example.py_str); reflexivity.
Defined.

(** Two feedback updates on [s1]: the second is the one kept. *)
Lemma update_session_feedback_overwrites_witness :
  session Example.w_session = PDict Sample.fields /\
  py_getitem
    (session
       (update_session_feedback Example.py_str (PStr "second") (PList [])
          (update_session_feedback Example.py_str (PStr "first") (PList [])
             Example.w_session).2).2) "feedback_result" = Ok (PStr "second").
Proof.
  split; [reflexivity|].
  destruct (update_session_feedback_overwrites Example.py_str Example.w_session
              Sample.fields (PStr "first") (PList []) (PStr "second") (PList [])
              eq_refl ltac:(discriminate)) as (_ & _ & H & _).
  exact H.
Defined.


(** A language set on a fresh configuration is read back, also after a
    restart. *)
Lemma config_set_get_witness :
  ConfigManager._config_cache Sample.config_new = PDict [] /\
  ConfigManager.get "language" (PStr "zh-TW")
    (ConfigManager.set "language" (PStr "en") Sample.config_new).2 = Ok (PStr "en") /\
  ConfigManager.get "language" (PStr "zh-TW")
    (ConfigManager.init
       (ConfigManager.disk (ConfigManager.set "language" (PStr "en") Sample.config_new).2)
       false) = Ok (PStr "en").
Proof.
  split; [reflexivity|].
  destruct (config_set_get "language" (PStr "en") (PStr "zh-TW") Sample.config_new []
              eq_refl) as (_ & H1 & _ & H2).
  split; [exact H1|]. exact (proj2 (H2 eq_refl eq_refl eq_refl)).
Defined.

(** On a file that does not parse the language cannot be set. *)
Lemma update_partial_config_broken_file_witness :
  ConfigManager.disk Sample.config_broken = Some FBroken /\
  ConfigManager._config_cache Sample.config_broken = PDict [] /\
  ConfigManager.get_language
    (ConfigManager.set_language (PStr "en") Sample.config_broken) =
  Ok (PStr "zh-TW").
Proof.
  split_and!; [reflexivity | reflexivity |].
  destruct (update_partial_config_broken_file Sample.config_broken [] eq_refl eq_refl)
    as (_ & H & _).
  rewrite H. reflexivity.
Defined.

(** The layout mode is updated; the language held only by the cache does not
    reach the file. *)
Lemma update_partial_config_merges_witness :
  ConfigManager._config_cache Sample.config_ahead = PDict [("language"%string, PStr "en")] /\
  ConfigManager.disk
    (ConfigManager.update_partial_config [("combined_mode"%string, PBool true)]
       Sample.config_ahead) =
  Some (FJson (PDict [("combined_mode"%string, PBool true)])).
Proof.
  split; [reflexivity|].
  destruct (update_partial_config_merges [("combined_mode"%string, PBool true)]
              Sample.config_ahead [("language"%string, PStr "en")]
              [("combined_mode"%string, PBool false)] eq_refl
              (or_intror eq_refl)) as (_ & H & _).
  refine (proj1 (H eq_refl eq_refl _)).
  constructor; [reflexivity | constructor].
Defined.

(** A dotted key set on a fresh configuration is read back. *)
Lemma set_setting_get_setting_witness :
  ConfigManager._config_cache Sample.config_new = PDict [] /\
  ConfigManager.get_setting "window.auto_focus" (PBool true)
    (ConfigManager.set_setting "window.auto_focus" (PBool false) Sample.config_new).2
  = PBool false.
Proof.
  split; [reflexivity|].
  destruct (set_setting_get_setting "window.auto_focus" (PBool false) (PBool true)
              Sample.config_new) as [H _].
  exact (proj1 (proj2 (H [] eq_refl))).
Defined.

(** After a reset the language is the default again. *)
Lemma reset_settings_defaults_witness :
  ConfigManager.read_only
    (ConfigManager.set "language" (PStr "en") Sample.config_new).2 = false /\
  ConfigManager.get "language" (PStr "zh-TW")
    (ConfigManager.reset_settings
       (ConfigManager.set "language" (PStr "en") Sample.config_new).2).2
  = Ok (PStr "zh-TW").
Proof.
  split; [reflexivity|].
  destruct (reset_settings_defaults
              (ConfigManager.set "language" (PStr "en") Sample.config_new).2)
    as [H _].
  exact (proj1 (H "language"%string (PStr "zh-TW"))).
Defined.

(** An orientation that is neither vertical nor horizontal is stored as
    vertical. *)
Lemma set_layout_orientation_normalises_witness :
  ConfigManager._config_cache Sample.config_new = PDict [] /\
  ConfigManager.disk Sample.config_new = None /\
  ConfigManager.get_layout_orientation
    (ConfigManager.set_layout_orientation (PStr "diagonal") Sample.config_new)
  = Ok (PStr "vertical").
Proof.
  split_and!; [reflexivity | reflexivity |].
  exact (set_layout_orientation_normalises (PStr "diagonal") Sample.config_new [] []
           eq_refl (or_introl (conj eq_refl eq_refl))).
Defined.

(** The sizes of the splitter [main]. *)
Lemma splitter_sizes_flat_key_witness :
  ConfigManager._config_cache Sample.config_new = PDict [] /\
  ConfigManager.get_splitter_sizes "main"
    (ConfigManager.set_splitter_sizes "main" (PList [PNum 300; PNum 500])
       Sample.config_new) = Ok (PList [PNum 300; PNum 500]) /\
  ConfigManager.get_setting "splitter_sizes.main" (PList [])
    (ConfigManager.set_splitter_sizes "main" (PList [PNum 300; PNum 500])
       Sample.config_new) = PList [].
Proof.
  split; [reflexivity|].
  exact (splitter_sizes_flat_key "main" (PList [PNum 300; PNum 500]) (PList [])
           Sample.config_new [] [] eq_refl (or_introl (conj eq_refl eq_refl)) eq_refl).
Defined.

(** A detection cached at time 1000 is served at 1299 and expired at 1300. *)
Lemma environment_detection_cached_witness :
  PerformanceOptimizer.cache_data Sample.optimizer_new = PDict [] /\
  PerformanceOptimizer.get_cached_environment_detection 1299
    (PerformanceOptimizer.cache_environment_detection false true 1000
       Sample.optimizer_new).2 =
    Ok (PDict [("is_remote"%string, PBool false); ("can_gui"%string, PBool true)]) /\
  PerformanceOptimizer.get_cached_environment_detection 1300
    (PerformanceOptimizer.cache_environment_detection false true 1000
       Sample.optimizer_new).2 = Ok PNone.
Proof.
  split; [reflexivity|].
  split.
  - exact (proj1 (proj2 (environment_detection_cached false true 1000 1299
                           Sample.optimizer_new [] eq_refl))).
  - exact (proj1 (proj2 (environment_detection_cached false true 1000 1300
                           Sample.optimizer_new [] eq_refl))).
Defined.

(** A local detection cached at time 1000 still decides at 1100, although the
    environment is remote by then. *)
Lemma interface_choice_cached_witness :
  PerformanceOptimizer.cache_data Sample.optimizer_new = PDict [] /\
  1100 - 1000 < 300 /\
  (PerformanceOptimizer.get_optimal_interface_choice false 1100 1101 true true
     (PerformanceOptimizer.cache_environment_detection false true 1000
        Sample.optimizer_new).2).1 = Ok "gui"%string.
Proof.
  split_and!; [reflexivity | lia |].
  destruct (interface_choice_cached false false true 1000 1100 1101 true true
              Sample.optimizer_new [] eq_refl) as (_ & H & _).
  rewrite (H ltac:(lia)). reflexivity.
Defined.


(** [s1], refreshed at time 100, is listed at time 200 and survives a sweep
    made at time 200. *)
Lemma cleanup_keeps_active_witness :
  (forall i, 200 <= Example.clock_200 i) /\
  Example.record ∈ get_active_sessions Example.clock_200 Example.w_session /\
  exists k,
    store (cleanup_old_sessions 200 24 Example.w_session) !! k =
    Some (FJson Example.record).
Proof.
  assert (forall i, 200 <= Example.clock_200 i) as Hclock
    by (intros i; unfold Example.clock_200; lia).
  assert (Example.record ∈ get_active_sessions Example.clock_200 Example.w_session)
    as Hin.
  { change (get_active_sessions Example.clock_200 Example.w_session)
      with [Example.record]. apply list_elem_of_singleton. reflexivity. }
  split_and!; [exact Hclock | exact Hin |].
  destruct (cleanup_keeps_active Example.clock_200 200 24 Example.w_session Hclock
              ltac:(lia)) as [H _].
  exact (H Example.record Hin).
Defined.
